(** * SEC EDGAR Fraud Analyzer, web client (src/app.js)

    A shallow embedding of the parts of [app.js] that classify, render and
    export an analysis report, generate the demo report, keep the analysis
    history and normalise the API URL.

    Conventions of the embedding:
    - a JavaScript number is an IEEE-754 binary64 value: Rocq's primitive
      [float]; a decimal literal of the source ([-2.22], [1.81], ...) is the
      same literal here and denotes the same binary64 value;
    - a property that may be absent is a [nullable] value ([Undefined],
      [Null] or [Val]), with the language's truthiness, [||] and [?.];
    - a string is a [string] of 8-bit characters, read as ASCII text
      (tickers, CIK numbers, URLs); the free text given to [escapeHtml] is
      read one code unit per character, see there;
    - the mutable globals of the script are threaded as an explicit state. *)

From Stdlib Require Import Floats ZArith PArith Bool List Lia.
From Stdlib Require Import Ascii String.
From Equations Require Import Equations.
From Equations.Prop Require Import Logic.
Import ListNotations.

Set Warnings "-inexact-float".

(** * JavaScript values the client handles *)

Module JS.

(** A property of a report object read by the client: the key may be absent
    (reads as [undefined]), hold JSON [null], or hold a value of the expected
    type. *)
Inductive nullable (A : Type) : Type :=
| Undefined
| Null
| Val (a : A).
Arguments Undefined {A}.
Arguments Null {A}.
Arguments Val {A} a.

(** Truthiness, per type of the carried value. *)
Class Truthy (A : Type) := truthy : A -> bool.

(** [0], [-0] and [NaN] are falsy. *)
#[export] Instance truthy_number : Truthy float :=
  fun x => negb (PrimFloat.is_nan x || PrimFloat.is_zero x).
(** The empty string is falsy. *)
#[export] Instance truthy_string : Truthy string :=
  fun s => negb (String.eqb s EmptyString).
#[export] Instance truthy_boolean : Truthy bool := fun b => b.

Definition isTruthy {A} `{Truthy A} (v : nullable A) : bool :=
  match v with
  | Val a => truthy a
  | Undefined | Null => false
  end.

(** [v || d] where [d] has the type carried by [v]. *)
Definition orElse {A} `{Truthy A} (v : nullable A) (d : A) : A :=
  match v with
  | Val a => if truthy a then a else d
  | Undefined | Null => d
  end.

(** [o?.p]: property [p] of [o], [undefined] when [o] is nullish. *)
Definition optChain {A B} (o : nullable A) (p : A -> nullable B) : nullable B :=
  match o with
  | Val a => p a
  | Undefined | Null => Undefined
  end.

(** [o?.m()] for a method of the carried value. *)
Definition optCall {A B} (o : nullable A) (m : A -> B) : nullable B :=
  match o with
  | Val a => Val (m a)
  | Undefined | Null => Undefined
  end.

(** [o || d] for an object [o]: an object reference is always truthy. *)
Definition objOr {A} (o : nullable A) (d : A) : A :=
  match o with
  | Val a => a
  | Undefined | Null => d
  end.

(** ** Numbers *)

(** ToNumber on a numeric property: [undefined] is NaN, [null] is [+0]. *)
Definition toNumber (v : nullable float) : float :=
  match v with
  | Undefined => PrimFloat.nan
  | Null => PrimFloat.zero
  | Val x => x
  end.

(** The relational operators, on numeric properties. *)
Definition lessThan (a b : nullable float) : bool := PrimFloat.ltb (toNumber a) (toNumber b).
Definition greaterThan (a b : nullable float) : bool := PrimFloat.ltb (toNumber b) (toNumber a).
Definition lessEq (a b : nullable float) : bool := PrimFloat.leb (toNumber a) (toNumber b).
Definition greaterEq (a b : nullable float) : bool := PrimFloat.leb (toNumber b) (toNumber a).

(** A number literal of the source. *)
Definition lit (x : float) : nullable float := Val x.

(** ** Strings *)

Local Open Scope string_scope.

Definition upper (c : ascii) : ascii :=
  let n := nat_of_ascii c in
  if (97 <=? n)%nat && (n <=? 122)%nat then ascii_of_nat (n - 32) else c.

(** [s.toUpperCase()] on ASCII text. *)
Fixpoint toUpperCase (s : string) : string :=
  match s with
  | EmptyString => EmptyString
  | String c s' => String (upper c) (toUpperCase s')
  end.

(** [s.includes(t)] *)
Fixpoint includes (s t : string) : bool :=
  String.prefix t s ||
  match s with
  | EmptyString => false
  | String _ s' => includes s' t
  end.

(** [s.endsWith(suffix)] *)
Definition endsWith (s suffix : string) : bool :=
  (String.length suffix <=? String.length s)%nat &&
  String.eqb (substring (String.length s - String.length suffix)
                        (String.length suffix) s) suffix.

(** [s.slice(0, -n)] for [n > 0]: all but the last [n] characters, the empty
    string when [s] is shorter than [n]. *)
Definition sliceOff (s : string) (n : nat) : string :=
  substring 0 (String.length s - n) s.

(** White space removed by [trim] (in the ASCII range). *)
Definition isWhiteSpace (c : ascii) : bool :=
  match nat_of_ascii c with
  | 9 | 10 | 11 | 12 | 13 | 32 => true
  | _ => false
  end.

Fixpoint trimStart (s : string) : string :=
  match s with
  | EmptyString => EmptyString
  | String c s' => if isWhiteSpace c then trimStart s' else s
  end.

Fixpoint trimEnd (s : string) : string :=
  match s with
  | EmptyString => EmptyString
  | String c s' =>
      let t := trimEnd s' in
      if isWhiteSpace c && String.eqb t EmptyString then EmptyString
      else String c t
  end.

(** [s.trim()] *)
Definition trim (s : string) : string := trimEnd (trimStart s).

End JS.

Import JS.
Local Open Scope string_scope.

(** * The analysis report

    The JSON object the client receives from [/api/analyze] or builds in demo
    mode.  Every property may be absent. *)

Module Company.
Record t := mk {
  name : nullable string;
  ticker : nullable string;
  cik : nullable string;
  sic : nullable string
}.
End Company.

Module Risk.
Record t := mk {
  score : nullable float;
  level : nullable string;
  summary : nullable string
}.
(** The object literal [{}]. *)
Definition empty : t := mk Undefined Undefined Undefined.
End Risk.

Module Beneish.
Record t := mk {
  m_score : nullable float;
  dsri : nullable float;
  gmi : nullable float;
  aqi : nullable float;
  sgi : nullable float
}.
End Beneish.

Module Altman.
Record t := mk {
  z_score : nullable float;
  zone : nullable string
}.
End Altman.

Module Piotroski.
Record t := mk {
  f_score : nullable float
}.
End Piotroski.

Module FraudTriangle.
Record t := mk {
  risk_score : nullable float;
  risk_level : nullable string;
  pressure : nullable float;
  opportunity : nullable float;
  rationalization : nullable float
}.
End FraudTriangle.

Module Benford.
Record t := mk {
  deviation : nullable float;
  suspicious : nullable bool
}.
End Benford.

Module Models.
Record t := mk {
  beneish : nullable Beneish.t;
  altman : nullable Altman.t;
  piotroski : nullable Piotroski.t;
  fraud_triangle : nullable FraudTriangle.t;
  benford : nullable Benford.t
}.
(** The object literal [{}]. *)
Definition empty : t := mk Undefined Undefined Undefined Undefined Undefined.
End Models.

Module Filing.
Record t := mk {
  accession : nullable string;
  filed_date : nullable string;
  form_type : nullable string;
  revenue : nullable float;
  net_income : nullable float;
  risk_level : nullable string
}.
End Filing.

Module Trends.
Record t := mk {
  revenue_trend : nullable string;
  income_trend : nullable string;
  cash_flow_trend : nullable string;
  debt_trend : nullable string
}.
End Trends.

Module RedFlag.
Record t := mk {
  type : nullable string;
  title : nullable string;
  description : nullable string
}.
End RedFlag.

Module Report.
Record t := mk {
  ticker : nullable string;
  company : nullable Company.t;
  filings_analyzed : nullable float;
  overall_risk : nullable Risk.t;
  composite_risk : nullable Risk.t;
  models : nullable Models.t;
  filings : nullable (list Filing.t);
  trends : nullable Trends.t;
  red_flags : nullable (list RedFlag.t);
  recommendation : nullable string
}.
End Report.

(** * Demo data generator *)

(** The test [identifier.toUpperCase().includes('ENRON') || identifier ===
    '0001024401'] of [generateDemoData]. *)
Definition isEnron (identifier : string) : bool :=
  includes (toUpperCase identifier) "ENRON" || String.eqb identifier "0001024401".

Definition generateDemoData (identifier : string) : Report.t :=
  let isEnron := isEnron identifier in
  {| Report.ticker := Val identifier;
     Report.company := Val
       {| Company.name :=
            Val (if isEnron then "Enron Corporation" else identifier ++ " Inc.");
          Company.ticker := Val (if isEnron then "ENE" else identifier);
          Company.cik := Val (if isEnron then "0001024401" else "0000000000");
          Company.sic := Val "4911" |};
     Report.filings_analyzed := Val 8%float;
     Report.overall_risk := Val
       {| Risk.score := Val (if isEnron then 0.85 else 0.25)%float;
          Risk.level := Val (if isEnron then "CRITICAL" else "LOW");
          Risk.summary := Undefined |};
     Report.composite_risk := Undefined;
     Report.models := Val
       {| Models.beneish := Val
            {| Beneish.m_score := Val (if isEnron then -1.42 else -2.85)%float;
               Beneish.dsri := Val (if isEnron then 1.35 else 1.02)%float;
               Beneish.gmi := Val (if isEnron then 1.15 else 0.98)%float;
               Beneish.aqi := Val (if isEnron then 1.28 else 1.01)%float;
               Beneish.sgi := Val (if isEnron then 1.45 else 1.08)%float |};
          Models.altman := Val
            {| Altman.z_score := Val (if isEnron then 1.25 else 3.45)%float;
               Altman.zone := Val (if isEnron then "Distress" else "Safe") |};
          Models.piotroski := Val
            {| Piotroski.f_score := Val (if isEnron then 2 else 7)%float |};
          Models.fraud_triangle := Val
            {| FraudTriangle.risk_score := Val (if isEnron then 0.78 else 0.22)%float;
               FraudTriangle.risk_level := Val (if isEnron then "HIGH" else "LOW");
               FraudTriangle.pressure := Val (if isEnron then 0.82 else 0.25)%float;
               FraudTriangle.opportunity := Val (if isEnron then 0.75 else 0.20)%float;
               FraudTriangle.rationalization :=
                 Val (if isEnron then 0.68 else 0.18)%float |};
          Models.benford := Val
            {| Benford.deviation := Val (if isEnron then 8.5 else 2.1)%float;
               Benford.suspicious := Val isEnron |} |};
     Report.filings := Val
       [ {| Filing.accession := Val "0001024401-00-000123";
            Filing.filed_date := Val "2000-03-15";
            Filing.form_type := Val "10-K";
            Filing.revenue := Val (if isEnron then 100789000000 else 50000000000)%float;
            Filing.net_income := Val (if isEnron then 979000000 else 5000000000)%float;
            Filing.risk_level := Val (if isEnron then "HIGH" else "LOW") |};
         {| Filing.accession := Val "0001024401-99-000456";
            Filing.filed_date := Val "1999-03-15";
            Filing.form_type := Val "10-K";
            Filing.revenue := Val (if isEnron then 40112000000 else 45000000000)%float;
            Filing.net_income := Val (if isEnron then 893000000 else 4500000000)%float;
            Filing.risk_level := Val (if isEnron then "MODERATE" else "LOW") |} ];
     Report.trends := Val
       {| Trends.revenue_trend := Val (if isEnron then "IMPROVING" else "STABLE");
          Trends.income_trend := Val (if isEnron then "DECLINING" else "IMPROVING");
          Trends.cash_flow_trend := Val (if isEnron then "DECLINING" else "STABLE");
          Trends.debt_trend := Val (if isEnron then "DECLINING" else "IMPROVING") |};
     Report.red_flags := Val
       (if isEnron then
          [ {| RedFlag.type := Val "EARNINGS_MANIPULATION";
               RedFlag.title := Val "Beneish M-Score Above Threshold";
               RedFlag.description := Val "M-Score of -1.42 exceeds the -2.22 threshold, indicating likely earnings manipulation." |};
            {| RedFlag.type := Val "BANKRUPTCY_RISK";
               RedFlag.title := Val "Altman Z-Score in Distress Zone";
               RedFlag.description := Val "Z-Score of 1.25 indicates high probability of bankruptcy within 2 years." |};
            {| RedFlag.type := Val "WEAK_FUNDAMENTALS";
               RedFlag.title := Val "Low Piotroski F-Score";
               RedFlag.description := Val "F-Score of 2 indicates weak financial fundamentals." |};
            {| RedFlag.type := Val "FRAUD_TRIANGLE";
               RedFlag.title := Val "High Fraud Triangle Risk";
               RedFlag.description := Val "Multiple fraud risk factors detected: high pressure, opportunity, and rationalization scores." |};
            {| RedFlag.type := Val "BENFORD_ANOMALY";
               RedFlag.title := Val "Benford's Law Deviation";
               RedFlag.description := Val "Significant deviation (8.5%) from expected digit distribution in financial figures." |} ]
        else []);
     Report.recommendation := Val
       (if isEnron
        then "CRITICAL RISK: Multiple fraud indicators detected. This analysis reflects Enron's actual financial condition prior to its 2001 collapse. The company filed for bankruptcy in December 2001."
        else "LOW RISK: No significant fraud indicators detected. Financial statements appear consistent with expected patterns.") |}.

(** * Risk classes of a level name ([getRiskClass], [getBgClass]) *)

Definition getRiskClass (level : nullable string) : string :=
  let l := toUpperCase (orElse level "") in
  if String.eqb l "LOW" then "risk-low"
  else if String.eqb l "MODERATE" then "risk-moderate"
  else if String.eqb l "ELEVATED" then "risk-elevated"
  else if String.eqb l "HIGH" then "risk-high"
  else if String.eqb l "CRITICAL" then "risk-critical"
  else "".

Definition getBgClass (level : nullable string) : string :=
  let l := toUpperCase (orElse level "") in
  if String.eqb l "LOW" then "bg-low"
  else if String.eqb l "MODERATE" then "bg-moderate"
  else if String.eqb l "ELEVATED" then "bg-elevated"
  else if String.eqb l "HIGH" then "bg-high"
  else if String.eqb l "CRITICAL" then "bg-critical"
  else "".

(** * Model cards ([displayModels])

    Each card of the template is kept as the values that fill its holes.  The
    expressions in the holes are named here, one definition per expression of
    the source. *)

Local Open Scope float_scope.

(** ** Beneish M-Score: [b.m_score > -2.22 ? ... : ...] *)

Definition beneishRiskClass (b : Beneish.t) : string :=
  if greaterThan (Beneish.m_score b) (lit (-2.22)) then "risk-high" else "risk-low".

Definition beneishBgClass (b : Beneish.t) : string :=
  if greaterThan (Beneish.m_score b) (lit (-2.22)) then "bg-high" else "bg-low".

Definition beneishIndicator (b : Beneish.t) : string :=
  if greaterThan (Beneish.m_score b) (lit (-2.22))
  then "Likely Manipulator" else "Unlikely Manipulator".

(** ** Altman Z-Score *)

(** [a.z_score > 2.99 ? 'Safe' : (a.z_score < 1.81 ? 'Distress' : 'Gray')] *)
Definition altmanZone (a : Altman.t) : string :=
  if greaterThan (Altman.z_score a) (lit 2.99) then "Safe"
  else if lessThan (Altman.z_score a) (lit 1.81) then "Distress"
  else "Gray".

(** [a.z_score < 1.81 ? 'risk-high' : (a.z_score > 2.99 ? 'risk-low' :
    'risk-moderate')] *)
Definition altmanRiskClass (a : Altman.t) : string :=
  if lessThan (Altman.z_score a) (lit 1.81) then "risk-high"
  else if greaterThan (Altman.z_score a) (lit 2.99) then "risk-low"
  else "risk-moderate".

Definition altmanBgClass (a : Altman.t) : string :=
  if lessThan (Altman.z_score a) (lit 1.81) then "bg-high"
  else if greaterThan (Altman.z_score a) (lit 2.99) then "bg-low"
  else "bg-moderate".

(** ** Piotroski F-Score: [p.f_score >= 7 ? ... : (p.f_score <= 3 ? ... : ...)] *)

Definition piotroskiRiskClass (p : Piotroski.t) : string :=
  if greaterEq (Piotroski.f_score p) (lit 7) then "risk-low"
  else if lessEq (Piotroski.f_score p) (lit 3) then "risk-high"
  else "risk-moderate".

Definition piotroskiBgClass (p : Piotroski.t) : string :=
  if greaterEq (Piotroski.f_score p) (lit 7) then "bg-low"
  else if lessEq (Piotroski.f_score p) (lit 3) then "bg-high"
  else "bg-moderate".

Definition piotroskiIndicator (p : Piotroski.t) : string :=
  if greaterEq (Piotroski.f_score p) (lit 7) then "Strong"
  else if lessEq (Piotroski.f_score p) (lit 3) then "Weak"
  else "Moderate".

(** The number shown on the card: [p.f_score || 0]. *)
Definition piotroskiShown (p : Piotroski.t) : float :=
  orElse (Piotroski.f_score p) 0.

(** ** Fraud Triangle: [ft.risk_score > 0.6 ? ... : (ft.risk_score > 0.3 ?
    ... : ...)] *)

Definition fraudTriangleRiskClass (ft : FraudTriangle.t) : string :=
  if greaterThan (FraudTriangle.risk_score ft) (lit 0.6) then "risk-high"
  else if greaterThan (FraudTriangle.risk_score ft) (lit 0.3) then "risk-moderate"
  else "risk-low".

Definition fraudTriangleBgClass (ft : FraudTriangle.t) : string :=
  if greaterThan (FraudTriangle.risk_score ft) (lit 0.6) then "bg-high"
  else if greaterThan (FraudTriangle.risk_score ft) (lit 0.3) then "bg-moderate"
  else "bg-low".

(** The text of the indicator: [ft.risk_level || 'Unknown']. *)
Definition fraudTriangleIndicator (ft : FraudTriangle.t) : string :=
  orElse (FraudTriangle.risk_level ft) "Unknown"%string.

(** ** Benford's Law: [bf.suspicious ? ... : ...] *)

Definition benfordRiskClass (bf : Benford.t) : string :=
  if isTruthy (Benford.suspicious bf) then "risk-high" else "risk-low".

Definition benfordBgClass (bf : Benford.t) : string :=
  if isTruthy (Benford.suspicious bf) then "bg-high" else "bg-low".

Definition benfordIndicator (bf : Benford.t) : string :=
  if isTruthy (Benford.suspicious bf) then "Anomaly Detected" else "Normal".

(** * Overview ([displayOverview]) *)

(** [data.overall_risk || data.composite_risk || {}] *)
Definition overviewRisk (data : Report.t) : Risk.t :=
  objOr (Report.overall_risk data) (objOr (Report.composite_risk data) Risk.empty).

(** [risk.level || 'Unknown'] *)
Definition riskLevel (data : Report.t) : string :=
  orElse (Risk.level (overviewRisk data)) "Unknown"%string.

(** [risk.score || 0] *)
Definition riskScore (data : Report.t) : float :=
  orElse (Risk.score (overviewRisk data)) 0.

(** The length of an array, as a number. *)
Definition arrayLength {A} (l : list A) : float :=
  PrimFloat.of_uint63 (Uint63.of_Z (Z.of_nat (List.length l))).

(** [data.red_flags?.length] *)
Definition redFlagsLength (data : Report.t) : nullable float :=
  optCall (Report.red_flags data) arrayLength.

(** [data.red_flags?.length || 0] *)
Definition redFlagsCount (data : Report.t) : float :=
  orElse (redFlagsLength data) 0.

(** * Rendering and export

    The number formatting built-ins are not part of the script; the rendering
    functions take them as parameters: [toFixed x d] is [x.toFixed(d)] and
    [numToString x] the text of [x] in a template literal. *)

Local Close Scope float_scope.

(** The holes of one [score-card] of the models tab. *)
Record Card := mkCard {
  value_class : string;
  value_text : string;
  score_label : string;
  indicator_class : string;
  indicator_text : string;
  small_print : option string
}.

(** The holes of the overview tab that show the composite risk and the
    counters. *)
Record Overview := mkOverview {
  score_class : string;
  score_text : string;
  level_class : string;
  level_text : string;
  filings_text : string;
  flags_class : string;
  flags_text : string
}.

(** A cell of the CSV table before it is quoted: a number or a string. *)
Inductive cell :=
| CNum (x : float)
| CStr (s : string).

(** [v || ''] for a numeric property [v]. *)
Definition orEmpty (v : nullable float) : cell :=
  match v with
  | Val x => if truthy x then CNum x else CStr ""
  | Undefined | Null => CStr ""
  end.

(** The array [rows] of [convertToCSV], before it is joined. *)
Definition csvRows (data : Report.t) : list (list cell) :=
  let models := Report.models data in
  [ [CStr "Metric"; CStr "Value"];
    [CStr "Ticker"; CStr (orElse (Report.ticker data) "")];
    [CStr "Company"; CStr (orElse (optChain (Report.company data) Company.name) "")];
    [CStr "Filings Analyzed"; CNum (orElse (Report.filings_analyzed data) 0%float)];
    [CStr "Overall Risk Score";
     orEmpty (optChain (Report.overall_risk data) Risk.score)];
    [CStr "Risk Level";
     CStr (orElse (optChain (Report.overall_risk data) Risk.level) "")] ]
  ++ match optChain models Models.beneish with
     | Val b => [ [CStr "Beneish M-Score"; orEmpty (Beneish.m_score b)] ]
     | Undefined | Null => []
     end
  ++ match optChain models Models.altman with
     | Val a => [ [CStr "Altman Z-Score"; orEmpty (Altman.z_score a)] ]
     | Undefined | Null => []
     end
  ++ match optChain models Models.piotroski with
     | Val p => [ [CStr "Piotroski F-Score"; orEmpty (Piotroski.f_score p)] ]
     | Undefined | Null => []
     end
  ++ [ [CStr "Red Flags"; CNum (redFlagsCount data)] ].

Definition quote : string := String "034" EmptyString.
Definition newline : string := String "010" EmptyString.

Section Rendering.

Variable toFixed : float -> nat -> string.
Variable numToString : float -> string.

(** [`${v}`] for a numeric property. *)
Definition showNumber (v : nullable float) : string :=
  match v with
  | Undefined => "undefined"
  | Null => "null"
  | Val x => numToString x
  end.

(** [`${v}`] for a string property. *)
Definition showString (v : nullable string) : string :=
  match v with
  | Undefined => "undefined"
  | Null => "null"
  | Val s => s
  end.

(** [v?.toFixed(2) || 'N/A'] *)
Definition fixed2OrNA (v : nullable float) : string :=
  orElse (optCall v (fun x => toFixed x 2)) "N/A".

(** [(x * 100).toFixed(0)] followed by the percent sign. *)
Definition percent (x : float) : string :=
  toFixed (PrimFloat.mul x 100%float) 0 ++ "%".

Definition beneishCard (b : Beneish.t) : Card :=
  {| value_class := beneishRiskClass b;
     value_text := fixed2OrNA (Beneish.m_score b);
     score_label := "Beneish M-Score";
     indicator_class := beneishBgClass b;
     indicator_text := beneishIndicator b;
     small_print := Some "Threshold: -2.22" |}.

Definition altmanCard (a : Altman.t) : Card :=
  {| value_class := altmanRiskClass a;
     value_text := fixed2OrNA (Altman.z_score a);
     score_label := "Altman Z-Score";
     indicator_class := altmanBgClass a;
     indicator_text := altmanZone a ++ " Zone";
     small_print := None |}.

Definition piotroskiCard (p : Piotroski.t) : Card :=
  {| value_class := piotroskiRiskClass p;
     value_text := numToString (piotroskiShown p);
     score_label := "Piotroski F-Score";
     indicator_class := piotroskiBgClass p;
     indicator_text := piotroskiIndicator p;
     small_print := Some "Scale: 0-9" |}.

Definition fraudTriangleCard (ft : FraudTriangle.t) : Card :=
  {| value_class := fraudTriangleRiskClass ft;
     value_text := percent (toNumber (FraudTriangle.risk_score ft));
     score_label := "Fraud Triangle Risk";
     indicator_class := fraudTriangleBgClass ft;
     indicator_text := fraudTriangleIndicator ft;
     small_print := None |}.

Definition benfordCard (bf : Benford.t) : Card :=
  {| value_class := benfordRiskClass bf;
     value_text := fixed2OrNA (Benford.deviation bf) ++ "%";
     score_label := "Benford's Law Deviation";
     indicator_class := benfordBgClass bf;
     indicator_text := benfordIndicator bf;
     small_print := None |}.

(** A card for each model the report carries. *)
Definition cardIf {A} (o : nullable A) (card : A -> Card) : list Card :=
  match o with
  | Val a => [card a]
  | Undefined | Null => []
  end.

Definition displayModels (data : Report.t) : list Card :=
  let models := objOr (Report.models data) Models.empty in
  cardIf (Models.beneish models) beneishCard
  ++ cardIf (Models.altman models) altmanCard
  ++ cardIf (Models.piotroski models) piotroskiCard
  ++ cardIf (Models.fraud_triangle models) fraudTriangleCard
  ++ cardIf (Models.benford models) benfordCard.

Definition displayOverview (data : Report.t) : Overview :=
  {| score_class := getRiskClass (Val (riskLevel data));
     score_text := percent (riskScore data);
     level_class := getBgClass (Val (riskLevel data));
     level_text := riskLevel data;
     filings_text := numToString (orElse (Report.filings_analyzed data) 0%float);
     flags_class :=
       getRiskClass (Val (if greaterThan (redFlagsLength data) (lit 3%float)
                          then "HIGH" else "LOW"));
     flags_text := numToString (redFlagsCount data) |}.

(** [`"${c}"`] *)
Definition quoted (c : cell) : string :=
  quote ++ match c with CNum x => numToString x | CStr s => s end ++ quote.

(** [rows.map(r => r.map(c => `"${c}"`).join(',')).join('\n')] *)
Definition convertToCSV (data : Report.t) : string :=
  String.concat newline
    (map (fun r => String.concat "," (map quoted r)) (csvRows data)).

(** The rows of the model table of [generateHTMLReport]: model, score,
    interpretation. *)
Definition htmlModelRows (data : Report.t) : list (string * string * string) :=
  let models := Report.models data in
  match optChain models Models.beneish with
  | Val b => [ ("Beneish M-Score",
                showString (optCall (Beneish.m_score b) (fun x => toFixed x 2)),
                beneishIndicator b) ]
  | Undefined | Null => []
  end
  ++ match optChain models Models.altman with
     | Val a => [ ("Altman Z-Score",
                   showString (optCall (Altman.z_score a) (fun x => toFixed x 2)),
                   altmanZone a) ]
     | Undefined | Null => []
     end
  ++ match optChain models Models.piotroski with
     | Val p => [ ("Piotroski F-Score",
                   showNumber (Piotroski.f_score p),
                   piotroskiIndicator p) ]
     | Undefined | Null => []
     end.

(** The "Score:" line of the HTML report:
    [((data.overall_risk?.score || 0) * 100).toFixed(0)] and the percent sign. *)
Definition htmlScoreText (data : Report.t) : string :=
  percent (orElse (optChain (Report.overall_risk data) Risk.score) 0%float).

End Rendering.

(** * Analysis history

    The global [analysisHistory] and the [localStorage] item of the same name,
    threaded as a state.  The item holds the JSON text of a history; what
    [JSON.parse] makes of it is kept instead of the text. *)

Module HistoryEntry.
Record t := mk {
  identifier : string;
  company : string;
  timestamp : string;
  riskLevel : string
}.
End HistoryEntry.

Inductive storedItem :=
| Missing                              (* no item: [getItem] gives [null] *)
| Unparsable                           (* [JSON.parse] throws *)
| Saved (h : list HistoryEntry.t).     (* the text of a history *)

Record App := mkApp {
  analysisHistory : list HistoryEntry.t;
  storedHistory : storedItem
}.

(** The script starts with [let analysisHistory = []]. *)
Definition start (item : storedItem) : App :=
  {| analysisHistory := []; storedHistory := item |}.

(** The entry built by [addToHistory]; [now] is [new Date().toISOString()]. *)
Definition historyEntry (identifier : string) (data : Report.t) (now : string)
  : HistoryEntry.t :=
  {| HistoryEntry.identifier := identifier;
     HistoryEntry.company :=
       orElse (optChain (Report.company data) Company.name) identifier;
     HistoryEntry.timestamp := now;
     HistoryEntry.riskLevel :=
       orElse (optChain (Report.overall_risk data) Risk.level) "Unknown" |}.

(** [unshift] the entry, [pop] when more than 50 are held, save. *)
Definition addToHistory (identifier : string) (data : Report.t) (now : string)
  (st : App) : App :=
  let h := historyEntry identifier data now :: analysisHistory st in
  let h := if (50 <? List.length h)%nat then removelast h else h in
  {| analysisHistory := h; storedHistory := Saved h |}.

Definition loadHistory (st : App) : App :=
  match storedHistory st with
  | Missing => st
  | Unparsable => {| analysisHistory := []; storedHistory := Unparsable |}
  | Saved h => {| analysisHistory := h; storedHistory := storedHistory st |}
  end.

Definition clearHistory (st : App) : App :=
  {| analysisHistory := []; storedHistory := Missing |}.

(** What happens to the history in the life of the page.  [Reload] starts the
    script again over the same [localStorage]; [initializeApp] then calls
    [loadHistory]. *)
Inductive event :=
| AddToHistory (identifier : string) (data : Report.t) (now : string)
| LoadHistory
| ClearHistory
| Reload.

Definition step (st : App) (e : event) : App :=
  match e with
  | AddToHistory identifier data now => addToHistory identifier data now st
  | LoadHistory => loadHistory st
  | ClearHistory => clearHistory st
  | Reload => loadHistory (start (storedHistory st))
  end.

(** The state after a sequence of events, from a browser profile that has no
    stored history yet. *)
Definition run (events : list event) : App :=
  fold_left step events (start Missing).

(** * The demo analysis ([analyzeCompany] in demo mode)

    The callback of the timer: [currentData = generateDemoData(identifier);
    displayResults(currentData); addToHistory(identifier, currentData)].  The
    globals it reads or writes are [currentData] and the history. *)

Record Session := mkSession {
  currentData : nullable Report.t;
  app : App
}.

Definition demoAnalysis (identifier : string) (now : string) (s : Session)
  : Session :=
  let data := generateDemoData identifier in
  {| currentData := Val data;
     app := addToHistory identifier data now (app s) |}.

(** * API URL ([normalizeApiUrl]) *)

Definition suffixesToRemove : list string :=
  [ "/api/health"; "/api/analyze"; "/api/filings"; "/api/"; "/api" ].

(** The body of the [for] loop. *)
Definition removeSuffix (url suffix : string) : string :=
  if endsWith url suffix then sliceOff url (String.length suffix) else url.

(** [while (url.endsWith('/')) url = url.slice(0, -1)] *)
Equations? removeTrailingSlashes (url : string) : string
  by wf (String.length url) lt :=
  removeTrailingSlashes url with inspect (endsWith url "/") := {
    | exist _ true Hends => removeTrailingSlashes (sliceOff url 1);
    | exist _ false Hends => url }.
Proof.
  unfold endsWith in Hends. apply andb_prop in Hends as [Hlen _].
  apply Nat.leb_le in Hlen. simpl in Hlen.
  assert (Hsub : forall s n, String.length (substring 0 n s) <= n).
  { induction s as [|c s IH]; intros [|n]; simpl; auto with arith. }
  unfold sliceOff. specialize (Hsub url (String.length url - 1)). lia.
Qed.

Definition normalizeApiUrl (url : nullable string) : string :=
  match url with
  | Undefined | Null => ""
  | Val url =>
      if negb (truthy url) then ""
      else
        let url := trim url in
        let url := fold_left removeSuffix suffixesToRemove url in
        removeTrailingSlashes url
  end.

(** * Readings of the specification

    Definitions that follow the words of the specification, to be compared
    with the code above. *)

(** The three risk bands the specification names for a model. *)
Inductive band := LOW | MODERATE | HIGH.

Definition riskClassOf (b : band) : string :=
  match b with
  | LOW => "risk-low"
  | MODERATE => "risk-moderate"
  | HIGH => "risk-high"
  end.

(** "M < -2.22 is LOW, -2.22 <= M <= -1.78 is MODERATE, M > -1.78 is HIGH". *)
Definition specBeneishBand (m : float) : band :=
  if PrimFloat.ltb m (-2.22)%float then LOW
  else if PrimFloat.leb m (-1.78)%float then MODERATE
  else HIGH.

(** "deviation below a low threshold is LOW, above a high threshold is HIGH,
    between is MODERATE", for thresholds [low] and [high]. *)
Definition specBenfordBand (low high deviation : float) : band :=
  if PrimFloat.ltb deviation low then LOW
  else if PrimFloat.ltb high deviation then HIGH
  else MODERATE.

(** "An identifier containing 'enron' case-insensitively, or the CIK
    '0001024401'". *)
Definition letter (lower upper : ascii) (c : ascii) : Prop :=
  c = lower \/ c = upper.

Definition spellsEnron (s : string) : Prop :=
  exists c1 c2 c3 c4 c5,
    s = String c1 (String c2 (String c3 (String c4 (String c5 EmptyString)))) /\
    letter "e" "E" c1 /\ letter "n" "N" c2 /\ letter "r" "R" c3 /\
    letter "o" "O" c4 /\ letter "n" "N" c5.

Definition recognizedAsEnron (identifier : string) : Prop :=
  (exists before mid after,
      identifier = before ++ mid ++ after /\ spellsEnron mid) \/
  identifier = "0001024401".

(** "All trailing slashes": [n] slashes in a row. *)
Fixpoint slashes (n : nat) : string :=
  match n with
  | 0 => EmptyString
  | S n => String "/" (slashes n)
  end.

(** "At most 50 entries", for the global and for the stored copy. *)
Definition bounded (st : App) : Prop :=
  List.length (analysisHistory st) <= 50 /\
  match storedHistory st with
  | Saved h => List.length h <= 50
  | Missing | Unparsable => True
  end.

(** * Sample reports *)

(** A report that carries nothing but a composite risk with the given score. *)
Definition reportWithScore (score : nullable float) : Report.t :=
  {| Report.ticker := Undefined;
     Report.company := Undefined;
     Report.filings_analyzed := Undefined;
     Report.overall_risk := Val (Risk.mk score (Val "LOW") Undefined);
     Report.composite_risk := Undefined;
     Report.models := Undefined;
     Report.filings := Undefined;
     Report.trends := Undefined;
     Report.red_flags := Undefined;
     Report.recommendation := Undefined |}.

(** A report that carries nothing but a Piotroski result. *)
Definition reportWithFScore (f_score : nullable float) : Report.t :=
  {| Report.ticker := Undefined;
     Report.company := Undefined;
     Report.filings_analyzed := Undefined;
     Report.overall_risk := Undefined;
     Report.composite_risk := Undefined;
     Report.models := Val
       {| Models.beneish := Undefined;
          Models.altman := Undefined;
          Models.piotroski := Val (Piotroski.mk f_score);
          Models.fraud_triangle := Undefined;
          Models.benford := Undefined |};
     Report.filings := Undefined;
     Report.trends := Undefined;
     Report.red_flags := Undefined;
     Report.recommendation := Undefined |}.

(** The report [data] with the composite score replaced by [score]. *)
Definition withScore (score : nullable float) (data : Report.t) : Report.t :=
  let risk := overviewRisk data in
  {| Report.ticker := Report.ticker data;
     Report.company := Report.company data;
     Report.filings_analyzed := Report.filings_analyzed data;
     Report.overall_risk :=
       Val (Risk.mk score (Risk.level risk) (Risk.summary risk));
     Report.composite_risk := Report.composite_risk data;
     Report.models := Report.models data;
     Report.filings := Report.filings data;
     Report.trends := Report.trends data;
     Report.red_flags := Report.red_flags data;
     Report.recommendation := Report.recommendation data |}.

(** A Beneish result in the grey zone of the documentation. *)
Definition beneishGrey : Beneish.t :=
  Beneish.mk (Val (-2)%float) Undefined Undefined Undefined Undefined.

(** Two Benford results with the same deviation. *)
Definition benfordFlagged : Benford.t := Benford.mk (Val 8.5%float) (Val true).
Definition benfordUnflagged : Benford.t := Benford.mk (Val 8.5%float) (Val false).

(** * More of the page: strings, the search form, batches

    The parts of the script around the report: text escaping, the
    identifier a search analyses, re-running a history entry, the ticker list
    of a batch, the demo CIK lookup. *)

(** ** Strings *)

Definition lower (c : ascii) : ascii :=
  let n := nat_of_ascii c in
  if (65 <=? n)%nat && (n <=? 90)%nat then ascii_of_nat (n + 32) else c.

(** [s.toLowerCase()] on ASCII text. *)
Fixpoint toLowerCase (s : string) : string :=
  match s with
  | EmptyString => EmptyString
  | String c s' => String (lower c) (toLowerCase s')
  end.

(** A string that does not begin with white space. *)
Definition startsClean (s : string) : bool :=
  match s with
  | EmptyString => true
  | String c _ => negb (isWhiteSpace c)
  end.

(** [s.startsWith(p)] *)
Definition startsWith (s p : string) : bool := String.prefix p s.

(** [s.split(sep)] for a separator that is one character of a class: the
    pieces between the separators, empty pieces included. *)
Fixpoint split (sep : ascii -> bool) (s : string) : list string :=
  match s with
  | EmptyString => [EmptyString]
  | String c s' =>
      if sep c then EmptyString :: split sep s'
      else match split sep s' with
           | piece :: pieces => String c piece :: pieces
           | [] => [String c EmptyString]
           end
  end.

(** ** [escapeHtml]

    The text is stored in a detached [div] as [textContent] and read back as
    [innerHTML]: the serialisation of a text node replaces [&], the no-break
    space U+00A0, [<] and [>] by their entities and leaves every other
    character as it is.  The function is given free text (company names,
    recommendations), so its characters are not taken to be ASCII: a character
    of the string is a code unit, and character 160 is the no-break space. *)

Definition nbsp : ascii := "160"%char.

Definition escapeChar (c : ascii) : string :=
  if Ascii.eqb c "&" then "&amp;"
  else if Ascii.eqb c nbsp then "&nbsp;"
  else if Ascii.eqb c "<" then "&lt;"
  else if Ascii.eqb c ">" then "&gt;"
  else String c EmptyString.

Fixpoint serializeText (s : string) : string :=
  match s with
  | EmptyString => EmptyString
  | String c s' => escapeChar c ++ serializeText s'
  end.

Definition escapeHtml (str : nullable string) : string :=
  match str with
  | Undefined | Null => ""
  | Val s => if negb (truthy s) then "" else serializeText s
  end.

(** ** The search form and [analyzeCompany] *)

(** The inputs [#ticker], [#cik] and the checkbox [#use-cik]. *)
Module Form.
Record t := mk {
  ticker : string;
  cik : string;
  use_cik : bool
}.
End Form.

(** The [identifier] that [analyzeCompany] reads from the form. *)
Definition requestedIdentifier (form : Form.t) : string :=
  if Form.use_cik form then trim (Form.cik form)
  else toUpperCase (trim (Form.ticker form)).

(** What a call of [analyzeCompany] leads to: an alert and nothing else, the
    demo analysis of an identifier, or a request to [/api/analyze] with the
    identifier under the key [cik] or [ticker] (the scope and the include flags
    of the query are left out). *)
Inductive outcome :=
| Alert (message kind : string)
| Demo (identifier : string)
| Request (key identifier : string).

Definition analyzeCompany (form : Form.t) (isDemoMode isConnected : bool)
  : outcome :=
  let identifier := requestedIdentifier form in
  if negb (truthy identifier) then
    if Form.use_cik form then Alert "Please enter a CIK number." "warning"
    else Alert "Please enter a ticker symbol." "warning"
  else if isDemoMode then Demo identifier
  else if negb isConnected then
    Alert "Not connected to server. Enable Demo Mode or configure connection."
          "error"
  else Request (if Form.use_cik form then "cik" else "ticker") identifier.

(** The form after [rerunAnalysis(identifier)] has filled it, before it calls
    [analyzeCompany]. *)
Definition rerunForm (identifier : string) (form : Form.t) : Form.t :=
  if startsWith identifier "0" && (String.length identifier =? 10)%nat then
    {| Form.ticker := Form.ticker form;
       Form.cik := identifier;
       Form.use_cik := true |}
  else
    {| Form.ticker := identifier;
       Form.cik := Form.cik form;
       Form.use_cik := false |}.

Definition rerunAnalysis (identifier : string) (form : Form.t)
  (isDemoMode isConnected : bool) : outcome :=
  analyzeCompany (rerunForm identifier form) isDemoMode isConnected.

(** ** [runBatchAnalysis] *)

(** The separators of the regular expression [/[,\n]/]. *)
Definition isTickerSeparator (c : ascii) : bool :=
  Ascii.eqb c "," || Ascii.eqb c "010".

(** [value.split(/[,\n]/).map(t => t.trim().toUpperCase()).filter(t =>
    t.length > 0)] *)
Definition batchTickers (value : string) : list string :=
  filter (fun t => (0 <? String.length t)%nat)
         (map (fun t => toUpperCase (trim t)) (split isTickerSeparator value)).

(** The form with [#ticker] set to [t]. *)
Definition withTicker (t : string) (form : Form.t) : Form.t :=
  {| Form.ticker := t; Form.cik := Form.cik form; Form.use_cik := Form.use_cik form |}.

(** What [runBatchAnalysis] does: a warning when no ticker is left, or the
    announcement of the number of companies followed by calls of
    [analyzeCompany], each after writing a ticker to [#ticker]: in demo mode
    for the first ticker only, otherwise for every ticker in order. *)
Inductive batch :=
| BatchWarning (message : string)
| BatchRuns (announced : nat) (runs : list outcome).

Definition runBatchAnalysis (value : string) (form : Form.t)
  (isDemoMode isConnected : bool) : batch :=
  let tickers := batchTickers value in
  match tickers with
  | [] => BatchWarning "Please enter at least one ticker symbol."
  | first :: _ =>
      BatchRuns (List.length tickers)
        (if isDemoMode then
           [analyzeCompany (withTicker first form) isDemoMode isConnected]
         else
           map (fun t => analyzeCompany (withTicker t form) isDemoMode isConnected)
               tickers)
  end.

(** ** [searchCIK] in demo mode *)

(** The table [demoResults]: key, company name, CIK. *)
Definition demoResults : list (string * (string * string)) :=
  [ ("enron", ("Enron Corp", "0001024401"));
    ("worldcom", ("WorldCom Inc", "0000723527"));
    ("lehman", ("Lehman Brothers Holdings Inc", "0000806085")) ].

(** The first entry whose key the lower-cased term includes. *)
Definition demoLookup (term : string) : option (string * string) :=
  option_map snd
    (find (fun entry => includes (toLowerCase term) (fst entry)) demoResults).

(** The demo branch of [searchCIK]: the alert shown and the form afterwards. *)
Definition searchCIKDemo (field : string) (form : Form.t)
  : outcome * Form.t :=
  let searchTerm := trim field in
  if negb (truthy searchTerm) then
    (Alert "Please enter a company name or ticker to search." "warning", form)
  else
    match demoLookup searchTerm with
    | Some (name, cik) =>
        (Alert ("Found: " ++ name ++ " - CIK: " ++ cik) "success",
         {| Form.ticker := Form.ticker form;
            Form.cik := cik;
            Form.use_cik := true |})
    | None => (Alert "No matching company found in demo data." "warning", form)
    end.

(** ** Readings used in the properties below *)

(** The characters [escapeHtml] replaces. *)
Definition isSpecial (c : ascii) : bool :=
  Ascii.eqb c "&" || Ascii.eqb c nbsp || Ascii.eqb c "<" || Ascii.eqb c ">".

(** The characters that open or close a tag. *)
Definition isMarkup (c : ascii) : bool :=
  Ascii.eqb c "<" || Ascii.eqb c ">".

(** The names of the risk levels, as they appear in the class names. *)
Definition bandNames : list string :=
  [ "low"; "moderate"; "elevated"; "high"; "critical" ].

(** A base URL that [normalizeApiUrl] has nothing to remove from: no white
    space around it, no slash and no endpoint path at its end. *)
Definition cleanBase (base : string) : bool :=
  String.eqb (trim base) base &&
  forallb (fun suffix => negb (endsWith base suffix)) ("/" :: suffixesToRemove).

(** * More of the report tabs: amounts and trends *)

(** [v === s] for a string property [v] and a string literal [s]. *)
Definition strictEq (v : nullable string) (s : string) : bool :=
  match v with
  | Val t => String.eqb t s
  | Undefined | Null => false
  end.

(** [parseFloat(x)] for a number [x]: the number is printed and read back,
    which gives the number again, a negative zero as [0]. *)
Definition parseFloatOfNumber (x : float) : float :=
  if PrimFloat.is_zero x then 0%float else x.

Section Amounts.

Variable toFixed : float -> nat -> string.

(** [formatCurrency(value)] *)
Definition formatCurrency (value : nullable float) : string :=
  match value with
  | Undefined | Null => "-"
  | Val v =>
      let num := parseFloatOfNumber v in
      if PrimFloat.is_nan num then "-"
      else if PrimFloat.leb 1e9%float (PrimFloat.abs num) then
        "$" ++ toFixed (PrimFloat.div num 1e9%float) 2 ++ "B"
      else if PrimFloat.leb 1e6%float (PrimFloat.abs num) then
        "$" ++ toFixed (PrimFloat.div num 1e6%float) 2 ++ "M"
      else if PrimFloat.leb 1e3%float (PrimFloat.abs num) then
        "$" ++ toFixed (PrimFloat.div num 1e3%float) 2 ++ "K"
      else "$" ++ toFixed num 2
  end.

End Amounts.

(** [getTrendArrow(trend)] *)
Definition getTrendArrow (trend : nullable string) : string :=
  if strictEq trend "IMPROVING" then "^"
  else if strictEq trend "DECLINING" then "v"
  else "-".

(** The holes of one card of the trends tab. *)
Record TrendCard := mkTrendCard {
  trend_class : string;
  trend_arrow : string;
  trend_label : string;
  trend_text : string
}.

(** The body of the loop of [displayTrends], for [item = { label, value }]. *)
Definition trendCard (label : string) (value : nullable string) : TrendCard :=
  {| trend_class :=
       if strictEq value "IMPROVING" then "risk-low"
       else if strictEq value "DECLINING" then "risk-high"
       else "risk-moderate";
     trend_arrow := getTrendArrow value;
     trend_label := label;
     trend_text := orElse value "N/A" |}.

(** The object literal [{}] for [data.trends || {}]. *)
Definition noTrends : Trends.t :=
  Trends.mk Undefined Undefined Undefined Undefined.

Definition displayTrends (data : Report.t) : list TrendCard :=
  let trends := objOr (Report.trends data) noTrends in
  [ trendCard "Revenue" (Trends.revenue_trend trends);
    trendCard "Net Income" (Trends.income_trend trends);
    trendCard "Cash Flow" (Trends.cash_flow_trend trends);
    trendCard "Debt Ratio" (Trends.debt_trend trends) ].


(** The label of a row of the CSV table: its first cell. *)
Definition csvLabel (row : list cell) : string :=
  match row with
  | CStr label :: _ => label
  | _ => ""
  end.

(** The labels the CSV table can carry. *)
Definition csvLabels : list string :=
  [ "Metric"; "Ticker"; "Company"; "Filings Analyzed"; "Overall Risk Score";
    "Risk Level"; "Beneish M-Score"; "Altman Z-Score"; "Piotroski F-Score";
    "Red Flags" ].

(** * The filings tab ([displayFilings]) *)

(** The holes of one row of the table. *)
Record FilingRow := mkFilingRow {
  accession_text : string;
  date_text : string;
  type_text : string;
  revenue_text : string;
  income_text : string;
  risk_class : string;
  risk_text : string
}.

Section Filings.

Variable toFixed : float -> nat -> string.

(** The body of the loop of [displayFilings]. *)
Definition filingRow (filing : Filing.t) : FilingRow :=
  {| accession_text := escapeHtml (Val (orElse (Filing.accession filing) "-"));
     date_text := escapeHtml (Val (orElse (Filing.filed_date filing) "-"));
     type_text := escapeHtml (Val (orElse (Filing.form_type filing) "-"));
     revenue_text := formatCurrency toFixed (Filing.revenue filing);
     income_text := formatCurrency toFixed (Filing.net_income filing);
     risk_class := getBgClass (Val (orElse (Filing.risk_level filing) "LOW"));
     risk_text := orElse (Filing.risk_level filing) "-" |}.

(** The rows of the table, or [None] for the paragraph "No filing data
    available.". *)
Definition displayFilings (data : Report.t) : option (list FilingRow) :=
  let filings := objOr (Report.filings data) [] in
  if (List.length filings =? 0)%nat then None
  else Some (map filingRow filings).

End Filings.

(** * Keyboard shortcuts ([setupKeyboardShortcuts]) *)

(** The properties of a [keydown] event that the handler reads. *)
Module KeyEvent.
Record t := mk {
  ctrlKey : bool;
  metaKey : bool;
  key : string
}.
End KeyEvent.

(** What the handler calls. *)
Inductive action :=
| ExportResults (format : string)
| PrintReport
| ToggleDarkMode
| ToggleDemoMode
| ShowHelp
| CloseModals.

(** The [switch] on [e.key.toLowerCase()]. *)
Definition shortcutOf (lowerKey : string) : option action :=
  if String.eqb lowerKey "s" then Some (ExportResults "json")
  else if String.eqb lowerKey "e" then Some (ExportResults "csv")
  else if String.eqb lowerKey "h" then Some (ExportResults "html")
  else if String.eqb lowerKey "p" then Some PrintReport
  else if String.eqb lowerKey "d" then Some ToggleDarkMode
  else if String.eqb lowerKey "m" then Some ToggleDemoMode
  else None.

Definition optionToList {A} (o : option A) : list A :=
  match o with
  | Some a => [a]
  | None => []
  end.

(** The calls the handler makes for an event, in order, and whether it calls
    [preventDefault]. *)
Definition onKeydown (e : KeyEvent.t) : list action * bool :=
  let combination :=
    if KeyEvent.ctrlKey e || KeyEvent.metaKey e
    then shortcutOf (toLowerCase (KeyEvent.key e))
    else None in
  let help := String.eqb (KeyEvent.key e) "F1" in
  let escape := String.eqb (KeyEvent.key e) "Escape" in
  ((optionToList combination
    ++ (if help then [ShowHelp] else [])
    ++ (if escape then [CloseModals] else []))%list,
   match combination with Some _ => true | None => help end).

(** * The logger ([LogLevel], [Logger])

    The object [Logger] as a record of the fields that its history depends
    on, its methods as functions on the record.  What the methods write to
    the console, with [formatMessage] and the two flags that shape it, is
    left out; [now] is [new Date().toISOString()]. *)

Module LogLevel.
Definition DEBUG : nat := 0.
Definition INFO : nat := 1.
Definition WARNING : nat := 2.
Definition ERROR : nat := 3.
Definition CRITICAL : nat := 4.
Definition NONE : nat := 5.
End LogLevel.

Module LogEntry.
Record t := mk {
  timestamp : string;
  level : string;
  message : string
}.
End LogEntry.

Module Logger.

(** What [this.level] holds: one of the numbers of [LogLevel], or an object,
    which [setLevel] stores for a name that the table [levels] inherits from
    [Object.prototype] and which compares like NaN. *)
Inductive levelValue :=
| Num (n : nat)
| Obj.

Record t := mk {
  level : levelValue;
  logHistory : list LogEntry.t;
  maxHistory : nat
}.

Definition initial : t :=
  {| level := Num LogLevel.INFO; logHistory := []; maxHistory := 1000 |}.

(** [this.level <= severity] *)
Definition enabled (lg : t) (severity : nat) : bool :=
  match level lg with
  | Num n => (n <=? severity)%nat
  | Obj => false
  end.

(** [push] the entry, [shift] when more than [maxHistory] are held. *)
Definition addToHistory (levelName message now : string) (lg : t) : t :=
  let h := (logHistory lg ++ [LogEntry.mk now levelName message])%list in
  let h := if (maxHistory lg <? List.length h)%nat then tl h else h in
  {| level := level lg; logHistory := h; maxHistory := maxHistory lg |}.

(** The common shape of [debug], [info], [warning], [error] and [critical]:
    when the level allows it, the arguments joined by a space go to the
    history. *)
Definition log (severity : nat) (levelName : string) (args : list string)
  (now : string) (lg : t) : t :=
  if enabled lg severity
  then addToHistory levelName (String.concat " " args) now lg
  else lg.

Definition debug := log LogLevel.DEBUG "DEBUG".
Definition info := log LogLevel.INFO "INFO".
Definition warning := log LogLevel.WARNING "WARNING".
Definition warn := warning.
Definition error := log LogLevel.ERROR "ERROR".
Definition critical := log LogLevel.CRITICAL "CRITICAL".

(** [levels[lower]], [None] for [undefined].  Beside its own seven keys the
    object literal answers to [constructor] and [__proto__], the two
    lower-case names it inherits. *)
Definition levels (lower : string) : option levelValue :=
  if String.eqb lower "debug" then Some (Num LogLevel.DEBUG)
  else if String.eqb lower "info" then Some (Num LogLevel.INFO)
  else if String.eqb lower "warning" then Some (Num LogLevel.WARNING)
  else if String.eqb lower "warn" then Some (Num LogLevel.WARNING)
  else if String.eqb lower "error" then Some (Num LogLevel.ERROR)
  else if String.eqb lower "critical" then Some (Num LogLevel.CRITICAL)
  else if String.eqb lower "none" then Some (Num LogLevel.NONE)
  else if String.eqb lower "constructor" || String.eqb lower "__proto__"
  then Some Obj
  else None.

Definition setLevel (levelStr : nullable string) (now : string) (lg : t) : t :=
  let lower := toLowerCase (orElse levelStr "info") in
  let lg :=
    {| level := match levels lower with
                | Some v => v
                | None => Num LogLevel.INFO
                end;
       logHistory := logHistory lg;
       maxHistory := maxHistory lg |} in
  info ["Log level set to: " ++ showString levelStr] now lg.

(** [names[this.level] || 'UNKNOWN'] *)
Definition getLevelString (lg : t) : string :=
  match level lg with
  | Num n =>
      nth n ["DEBUG"; "INFO"; "WARNING"; "ERROR"; "CRITICAL"; "NONE"] "UNKNOWN"
  | Obj => "UNKNOWN"
  end.

(** [this.logHistory.slice(-maxEntries)], [maxEntries] being 100 when the
    argument is not given.  [slice(-0)] is [slice(0)]. *)
Definition getHistory (maxEntries : option nat) (lg : t) : list LogEntry.t :=
  let n := match maxEntries with Some n => n | None => 100 end in
  let len := List.length (logHistory lg) in
  skipn (if (n =? 0)%nat then 0 else len - n) (logHistory lg).

Definition clearHistory (lg : t) : t :=
  {| level := level lg; logHistory := []; maxHistory := maxHistory lg |}.

Definition exportHistory (lg : t) : string :=
  String.concat newline
    (map (fun e => LogEntry.timestamp e ++ " [" ++ LogEntry.level e ++ "] "
                   ++ LogEntry.message e)
         (logHistory lg)).

(** The calls the script makes on the logger. *)
Inductive call :=
| Debug (args : list string) (now : string)
| Info (args : list string) (now : string)
| Warning (args : list string) (now : string)
| Warn (args : list string) (now : string)
| Error (args : list string) (now : string)
| Critical (args : list string) (now : string)
| SetLevel (levelStr : nullable string) (now : string)
| ClearHistory.

Definition step (lg : t) (c : call) : t :=
  match c with
  | Debug args now => debug args now lg
  | Info args now => info args now lg
  | Warning args now => warning args now lg
  | Warn args now => warn args now lg
  | Error args now => error args now lg
  | Critical args now => critical args now lg
  | SetLevel levelStr now => setLevel levelStr now lg
  | ClearHistory => clearHistory lg
  end.

Definition run (calls : list call) : t := fold_left step calls initial.

(** "At most 1000 entries", under the limit the script sets. *)
Definition capped (lg : t) : Prop :=
  maxHistory lg = 1000 /\ List.length (logHistory lg) <= 1000.

(** A call of one of the logging methods. *)
Definition isLogging (c : call) : bool :=
  match c with
  | SetLevel _ _ | ClearHistory => false
  | _ => true
  end.

End Logger.

(** * Settings: [config.json], [localStorage] and the globals

    The globals [apiBaseUrl], [requestTimeout], [isDarkMode] and
    [isDemoMode], the items of [localStorage] that keep them, and the object
    of [config.json].  [parseInt] (with radix 10) and the text of a number
    are parameters; the changes to the page itself (classes, modals) are left
    out, and so are the logging calls other than [Logger.setLevel]. *)

Module Config.
Record t := mk {
  apiUrl : nullable string;
  timeout : nullable float;
  logLevel : nullable string;
  darkMode : nullable bool;
  demoMode : nullable bool
}.
End Config.

(** The four items; [Null] is what [getItem] gives for a missing item. *)
Module Stored.
Record t := mk {
  apiUrl : nullable string;
  requestTimeout : nullable string;
  darkMode : nullable string;
  demoMode : nullable string
}.
Definition empty : t := mk Null Null Null Null.
End Stored.

(** The globals.  A flag holds a boolean, or [null] after a [config.json]
    that gives [null] for it. *)
Record Settings := mkSettings {
  apiBaseUrl : string;
  requestTimeout : float;
  isDarkMode : nullable bool;
  isDemoMode : nullable bool
}.

(** The values the script starts with. *)
Definition defaults : Settings :=
  {| apiBaseUrl := "";
     requestTimeout := 30%float;
     isDarkMode := Val false;
     isDemoMode := Val false |}.

(** [if (flag !== undefined) global = flag] *)
Definition unlessUndefined {A} (flag global : nullable A) : nullable A :=
  match flag with
  | Undefined => global
  | Null | Val _ => flag
  end.

Definition applyConfig (config : Config.t) (now : string)
  (st : Settings) (lg : Logger.t) : Settings * Logger.t :=
  ({| apiBaseUrl :=
        if isTruthy (Config.apiUrl config)
        then normalizeApiUrl (Config.apiUrl config)
        else apiBaseUrl st;
      requestTimeout := orElse (Config.timeout config) (requestTimeout st);
      isDarkMode := unlessUndefined (Config.darkMode config) (isDarkMode st);
      isDemoMode := unlessUndefined (Config.demoMode config) (isDemoMode st) |},
   if isTruthy (Config.logLevel config)
   then Logger.setLevel (Config.logLevel config) now lg
   else lg).

(** What fetching [config.json] gave: an object, a response that is not OK,
    or a failure (no file, no JSON). *)
Inductive fetched :=
| Loaded (config : Config.t)
| NotOk
| Failed.

Definition loadConfigFile (file : fetched) (now : string)
  (st : Settings) (lg : Logger.t) : Settings * Logger.t :=
  match file with
  | Loaded config =>
      let (st, lg) := applyConfig config now st lg in
      (st, Logger.info ["Loaded config.json"] now lg)
  | NotOk => (st, lg)
  | Failed => (st, Logger.debug ["No config.json found, using defaults"] now lg)
  end.

Definition boolToString (b : bool) : string := if b then "true" else "false".

Section SettingsFunctions.

Variable parseInt : string -> float.
Variable numToString : float -> string.

Definition loadSettings (stored : Stored.t) (st : Settings) : Settings :=
  {| apiBaseUrl :=
       if isTruthy (Stored.apiUrl stored) && negb (truthy (apiBaseUrl st))
       then normalizeApiUrl (Stored.apiUrl stored)
       else apiBaseUrl st;
     requestTimeout :=
       match Stored.requestTimeout stored with
       | Val text => if truthy text then parseInt text else requestTimeout st
       | Undefined | Null => requestTimeout st
       end;
     isDarkMode :=
       if strictEq (Stored.darkMode stored) "true" then Val true
       else isDarkMode st;
     isDemoMode :=
       if strictEq (Stored.demoMode stored) "true" then Val true
       else isDemoMode st |}.

(** [saveSettings]: the items after the call, and whether it completed.  The
    four [setItem] run in order; [toString] of a flag that is [null] throws,
    after the items before it were written. *)
Definition saveSettings (st : Settings) (stored : Stored.t) : Stored.t * bool :=
  let url := Val (apiBaseUrl st) in
  let timeout := Val (numToString (requestTimeout st)) in
  match isDarkMode st with
  | Val dark =>
      match isDemoMode st with
      | Val demo =>
          (Stored.mk url timeout (Val (boolToString dark)) (Val (boolToString demo)),
           true)
      | Undefined | Null =>
          (Stored.mk url timeout (Val (boolToString dark)) (Stored.demoMode stored),
           false)
      end
  | Undefined | Null =>
      (Stored.mk url timeout (Stored.darkMode stored) (Stored.demoMode stored),
       false)
  end.

(** The globals after [saveConnectionSettings], for the values of the two
    inputs of the dialog; it goes on to [saveSettings]. *)
Definition connectionSettings (urlValue timeoutValue : string) (st : Settings)
  : Settings :=
  {| apiBaseUrl := normalizeApiUrl (Val urlValue);
     requestTimeout := orElse (Val (parseInt timeoutValue)) 30%float;
     isDarkMode := isDarkMode st;
     isDemoMode := isDemoMode st |}.

Definition saveConnectionSettings (urlValue timeoutValue : string)
  (st : Settings) (stored : Stored.t) : Settings * (Stored.t * bool) :=
  let st := connectionSettings urlValue timeoutValue st in
  (st, saveSettings st stored).

(** [toggleDarkMode]: the flag is negated and the settings saved. *)
Definition toggleDarkMode (st : Settings) (stored : Stored.t)
  : Settings * (Stored.t * bool) :=
  let st := {| apiBaseUrl := apiBaseUrl st;
               requestTimeout := requestTimeout st;
               isDarkMode := Val (negb (isTruthy (isDarkMode st)));
               isDemoMode := isDemoMode st |} in
  (st, saveSettings st stored).

(** The URL that [checkServerConnection] requests, if it requests one: none
    in demo mode, none without a base URL. *)
Definition healthCheck (st : Settings) : option string :=
  if isTruthy (isDemoMode st) then None
  else if negb (truthy (apiBaseUrl st)) then None
  else Some (apiBaseUrl st ++ "/api/health").

(** What [initializeApp] leaves. *)
Record Initialized := mkInitialized {
  settings : Settings;
  items : Stored.t;
  firstHealthCheck : option string
}.

(** [initializeApp]: [config.json], then [loadSettings], then the first
    connection check, then the stored URL once more. *)
Definition initializeApp (file : fetched) (now : string) (stored : Stored.t)
  : Initialized :=
  let st := fst (loadConfigFile file now defaults Logger.initial) in
  let st := loadSettings stored st in
  let check := healthCheck st in
  if isTruthy (Stored.apiUrl stored) then
    let url := normalizeApiUrl (Stored.apiUrl stored) in
    {| settings := {| apiBaseUrl := url;
                      requestTimeout := requestTimeout st;
                      isDarkMode := isDarkMode st;
                      isDemoMode := isDemoMode st |};
       items := Stored.mk (Val url) (Stored.requestTimeout stored)
                          (Stored.darkMode stored) (Stored.demoMode stored);
       firstHealthCheck := check |}
  else
    {| settings := st; items := stored; firstHealthCheck := check |}.

End SettingsFunctions.

(** ** Readings used in the properties below *)

(** The history and its stored copy agree. *)
Definition mirrored (st : App) : Prop :=
  storedHistory st = Saved (analysisHistory st) \/
  (storedHistory st = Missing /\ analysisHistory st = []).

(** The base URL that [config.json] gives: its [apiUrl], normalised, or the
    empty string. *)
Definition configuredUrl (file : fetched) : string :=
  match file with
  | Loaded config =>
      if isTruthy (Config.apiUrl config)
      then normalizeApiUrl (Config.apiUrl config)
      else ""
  | NotOk | Failed => ""
  end.

(** Whether [config.json] gives a truthy value for a flag. *)
Definition configuredFlag (flag : Config.t -> nullable bool) (file : fetched)
  : bool :=
  match file with
  | Loaded config => isTruthy (flag config)
  | NotOk | Failed => false
  end.

(** * Properties *)

(** * Ordering of binary64 numbers

    The comparison operators of the source are the IEEE ones; they are
    specified by [SFcompare] over the decoded value.  [SFcompare] is a
    lexicographic order (sign, exponent, mantissa) with the infinities at both
    ends and NaN unordered, hence transitive. *)

Module FloatOrder.

Local Open Scope float_scope.

Ltac cmp_cases :=
  repeat match goal with
  | b : bool |- _ => destruct b
  | |- context [Z.compare ?a ?b] => destruct (Z.compare_spec a b); subst
  | H : context [Z.compare ?a ?b] |- _ => destruct (Z.compare_spec a b); subst
  | |- context [Pos.compare_cont Eq ?a ?b] =>
      change (Pos.compare_cont Eq a b) with (Pos.compare a b);
      destruct (Pos.compare_spec a b); subst
  | H : context [Pos.compare_cont Eq ?a ?b] |- _ =>
      change (Pos.compare_cont Eq a b) with (Pos.compare a b) in H;
      destruct (Pos.compare_spec a b); subst
  end;
  simpl in *; try congruence; try lia.

Lemma SFcompare_lt_trans x y z :
  SFcompare x y = Some Lt -> SFcompare y z = Some Lt -> SFcompare x z = Some Lt.
Proof.
  destruct x as [sx|sx| |sx mx ex], y as [sy|sy| |sy my ey],
           z as [sz|sz| |sz mz ez]; simpl; intros Hxy Hyz;
    try discriminate; cmp_cases.
Qed.

Lemma SFcompare_eq_lt x y z :
  SFcompare x y = Some Eq -> SFcompare y z = Some Lt -> SFcompare x z = Some Lt.
Proof.
  destruct x as [sx|sx| |sx mx ex], y as [sy|sy| |sy my ey],
           z as [sz|sz| |sz mz ez]; simpl; intros Hxy Hyz;
    try discriminate; cmp_cases.
Qed.

Lemma SFcompare_lt_eq x y z :
  SFcompare x y = Some Lt -> SFcompare y z = Some Eq -> SFcompare x z = Some Lt.
Proof.
  destruct x as [sx|sx| |sx mx ex], y as [sy|sy| |sy my ey],
           z as [sz|sz| |sz mz ez]; simpl; intros Hxy Hyz;
    try discriminate; cmp_cases.
Qed.

Lemma SFcompare_eq_trans x y z :
  SFcompare x y = Some Eq -> SFcompare y z = Some Eq -> SFcompare x z = Some Eq.
Proof.
  destruct x as [sx|sx| |sx mx ex], y as [sy|sy| |sy my ey],
           z as [sz|sz| |sz mz ez]; simpl; intros Hxy Hyz;
    try discriminate; cmp_cases.
Qed.

Lemma SFcompare_lt_flip x y :
  SFcompare x y = Some Lt -> SFcompare y x = Some Gt.
Proof.
  destruct x as [sx|sx| |sx mx ex], y as [sy|sy| |sy my ey]; simpl; intros H;
    try discriminate; cmp_cases.
Qed.

Lemma SFcompare_eq_flip x y :
  SFcompare x y = Some Eq -> SFcompare y x = Some Eq.
Proof.
  destruct x as [sx|sx| |sx mx ex], y as [sy|sy| |sy my ey]; simpl; intros H;
    try discriminate; cmp_cases.
Qed.

(** The same facts on the primitive operators [<?] and [<=?]. *)

Lemma ltb_compare x y :
  (x <? y) = true <-> SFcompare (Prim2SF x) (Prim2SF y) = Some Lt.
Proof.
  rewrite ltb_spec. unfold SFltb.
  destruct (SFcompare _ _) as [[]|]; split; congruence.
Qed.

Lemma leb_compare x y :
  (x <=? y) = true <->
  SFcompare (Prim2SF x) (Prim2SF y) = Some Lt \/
  SFcompare (Prim2SF x) (Prim2SF y) = Some Eq.
Proof.
  rewrite leb_spec. unfold SFleb.
  destruct (SFcompare _ _) as [[]|]; split; intros H;
    try congruence; auto; destruct H; congruence.
Qed.

Lemma ltb_trans x y z : (x <? y) = true -> (y <? z) = true -> (x <? z) = true.
Proof.
  rewrite !ltb_compare. apply SFcompare_lt_trans.
Qed.

Lemma ltb_leb_trans x y z :
  (x <? y) = true -> (y <=? z) = true -> (x <? z) = true.
Proof.
  rewrite !ltb_compare, leb_compare. intros H [H'|H'].
  - eapply SFcompare_lt_trans; eassumption.
  - eapply SFcompare_lt_eq; eassumption.
Qed.

Lemma leb_ltb_trans x y z :
  (x <=? y) = true -> (y <? z) = true -> (x <? z) = true.
Proof.
  rewrite !ltb_compare, leb_compare. intros [H|H] H'.
  - eapply SFcompare_lt_trans; eassumption.
  - eapply SFcompare_eq_lt; eassumption.
Qed.

Lemma leb_trans x y z :
  (x <=? y) = true -> (y <=? z) = true -> (x <=? z) = true.
Proof.
  rewrite !leb_compare. intros [H|H] [H'|H'].
  - left. eapply SFcompare_lt_trans; eassumption.
  - left. eapply SFcompare_lt_eq; eassumption.
  - left. eapply SFcompare_eq_lt; eassumption.
  - right. eapply SFcompare_eq_trans; eassumption.
Qed.

Lemma ltb_not_geb x y : (x <? y) = true -> (y <=? x) = false.
Proof.
  rewrite ltb_compare. intros H. apply SFcompare_lt_flip in H.
  rewrite leb_spec. unfold SFleb. now rewrite H.
Qed.

Lemma leb_not_gtb x y : (x <=? y) = true -> (y <? x) = false.
Proof.
  rewrite leb_compare. intros [H|H]; rewrite ltb_spec; unfold SFltb.
  - apply SFcompare_lt_flip in H. now rewrite H.
  - apply SFcompare_eq_flip in H. now rewrite H.
Qed.

Lemma ltb_leb x y : (x <? y) = true -> (x <=? y) = true.
Proof.
  rewrite ltb_compare, leb_compare. auto.
Qed.

End FloatOrder.

(** * Lengths of slices *)

Lemma length_substring0 n s :
  String.length (substring 0 n s) = Nat.min n (String.length s).
Proof.
  revert n. induction s as [|c s IH]; intros [|n]; simpl; auto.
Qed.

Lemma length_sliceOff s n :
  String.length (sliceOff s n) = String.length s - n.
Proof.
  unfold sliceOff. rewrite length_substring0. lia.
Qed.

Lemma endsWith_length s suffix :
  endsWith s suffix = true -> String.length suffix <= String.length s.
Proof.
  unfold endsWith. intros H. apply andb_prop in H as [H _].
  now apply Nat.leb_le.
Qed.

(** * Strings: [includes] and [toUpperCase] *)

Section StringFacts.

Lemma includes_unfold s t :
  includes s t =
  (String.prefix t s ||
   match s with EmptyString => false | String _ s' => includes s' t end)%bool.
Proof. destruct s; reflexivity. Qed.

Lemma prefix_app t rest : String.prefix t (t ++ rest) = true.
Proof.
  induction t as [|c t IH]; simpl.
  - destruct rest; reflexivity.
  - destruct (ascii_dec c c) as [_|Hc]; [exact IH | now elim Hc].
Qed.

Lemma prefix_inv t s : String.prefix t s = true -> exists rest, s = t ++ rest.
Proof.
  revert s. induction t as [|c t IH]; intros s H.
  - exists s. reflexivity.
  - destruct s as [|d s]; simpl in H; [discriminate|].
    destruct (ascii_dec c d) as [->|_]; [|discriminate].
    destruct (IH _ H) as [rest ->]. exists rest. reflexivity.
Qed.

Lemma includes_app before t rest : includes (before ++ t ++ rest) t = true.
Proof.
  induction before as [|c before IH].
  - simpl append. rewrite includes_unfold, prefix_app. reflexivity.
  - rewrite includes_unfold. simpl. rewrite IH. apply orb_true_r.
Qed.

Lemma includes_inv s t :
  includes s t = true -> exists before rest, s = before ++ t ++ rest.
Proof.
  induction s as [|c s IH]; rewrite includes_unfold; intros H;
    apply orb_prop in H as [H|H].
  - apply prefix_inv in H as [rest ->]. exists EmptyString, rest. reflexivity.
  - discriminate.
  - apply prefix_inv in H as [rest ->]. exists EmptyString, rest. reflexivity.
  - destruct (IH H) as (before & rest & ->).
    exists (String c before), rest. reflexivity.
Qed.

Lemma toUpperCase_app s1 s2 :
  toUpperCase (s1 ++ s2) = toUpperCase s1 ++ toUpperCase s2.
Proof.
  induction s1 as [|c s1 IH]; simpl; [reflexivity | now rewrite IH].
Qed.

(** A string whose upper-case form splits was itself split the same way. *)
Lemma toUpperCase_split s u v :
  toUpperCase s = u ++ v ->
  exists s1 s2, s = s1 ++ s2 /\ toUpperCase s1 = u /\ toUpperCase s2 = v.
Proof.
  revert s. induction u as [|c u IH]; intros s H.
  - exists EmptyString, s. auto.
  - destruct s as [|d s]; simpl in H; [discriminate|].
    injection H as Hc Hs. destruct (IH _ Hs) as (s1 & s2 & -> & H1 & H2).
    exists (String d s1), s2. simpl. rewrite H1, Hc. auto.
Qed.

Ltac each_ascii c :=
  destruct c as [[] [] [] [] [] [] [] []]; vm_compute; intuition congruence.

Lemma upper_E c : upper c = "E"%char <-> letter "e" "E" c.
Proof. unfold letter. each_ascii c. Qed.
Lemma upper_N c : upper c = "N"%char <-> letter "n" "N" c.
Proof. unfold letter. each_ascii c. Qed.
Lemma upper_R c : upper c = "R"%char <-> letter "r" "R" c.
Proof. unfold letter. each_ascii c. Qed.
Lemma upper_O c : upper c = "O"%char <-> letter "o" "O" c.
Proof. unfold letter. each_ascii c. Qed.

Lemma spellsEnron_upper s : spellsEnron s <-> toUpperCase s = "ENRON".
Proof.
  split.
  - intros (c1 & c2 & c3 & c4 & c5 & -> & H1 & H2 & H3 & H4 & H5). simpl.
    apply upper_E in H1. apply upper_N in H2. apply upper_R in H3.
    apply upper_O in H4. apply upper_N in H5. congruence.
  - intros H.
    destruct s as [|c1 [|c2 [|c3 [|c4 [|c5 [|c6 s]]]]]]; simpl in H;
      try discriminate.
    injection H as H1 H2 H3 H4 H5.
    exists c1, c2, c3, c4, c5. split; [reflexivity|].
    rewrite <- upper_E, <- !upper_N, <- upper_R, <- upper_O. auto.
Qed.

(** The test of the generator recognises exactly the identifiers the
    specification describes. *)
Lemma isEnron_iff identifier :
  isEnron identifier = true <-> recognizedAsEnron identifier.
Proof.
  unfold isEnron, recognizedAsEnron. rewrite orb_true_iff, String.eqb_eq.
  split; (intros [H|H]; [left|right; exact H]).
  - apply includes_inv in H as (u & v & H).
    apply toUpperCase_split in H as (before & s2 & -> & _ & H).
    apply toUpperCase_split in H as (mid & rest & -> & H & _).
    exists before, mid, rest. split; [reflexivity|]. now apply spellsEnron_upper.
  - destruct H as (before & mid & rest & -> & H).
    apply spellsEnron_upper in H.
    rewrite !toUpperCase_app, H. apply includes_app.
Qed.

End StringFacts.

(** * The demo report *)

Section DemoReport.

(** C1: for every identifier recognised as Enron (it contains "enron" in any
    letter case, or it is the CIK 0001024401) the generated report carries a
    Beneish M-Score of -1.42 that is displayed as HIGH (likely manipulator),
    an Altman Z-Score of 1.25 in the Distress zone, the composite level
    CRITICAL, and at least three red flags. *)
Theorem enron_demo_report identifier :
  recognizedAsEnron identifier ->
  let data := generateDemoData identifier in
  exists b a flags,
    optChain (Report.models data) Models.beneish = Val b /\
    Beneish.m_score b = Val (-1.42)%float /\
    beneishRiskClass b = riskClassOf HIGH /\
    beneishBgClass b = "bg-high" /\
    beneishIndicator b = "Likely Manipulator" /\
    optChain (Report.models data) Models.altman = Val a /\
    Altman.z_score a = Val 1.25%float /\
    Altman.zone a = Val "Distress" /\
    altmanZone a = "Distress" /\
    altmanRiskClass a = riskClassOf HIGH /\
    optChain (Report.overall_risk data) Risk.level = Val "CRITICAL" /\
    riskLevel data = "CRITICAL" /\
    getRiskClass (Val (riskLevel data)) = "risk-critical" /\
    Report.red_flags data = Val flags /\
    3 <= List.length flags.
Proof.
  intros H data. apply isEnron_iff in H.
  subst data. unfold generateDemoData, riskLevel, overviewRisk. rewrite H.
  cbn [Report.models Report.overall_risk Report.red_flags optChain objOr
       Models.beneish Models.altman Risk.level].
  do 3 eexists. repeat split; try reflexivity. simpl. lia.
Qed.

Lemma enron_demo_report_witness :
  recognizedAsEnron "Enron" /\
  riskLevel (generateDemoData "Enron") = "CRITICAL".
Proof.
  assert (H : recognizedAsEnron "Enron").
  { left. exists EmptyString, "Enron", EmptyString. split; [reflexivity|].
    exists "E"%char, "n"%char, "r"%char, "o"%char, "n"%char.
    unfold letter. repeat split; auto. }
  split; [exact H|].
  destruct (enron_demo_report "Enron" H)
    as (b & a & flags & _ & _ & _ & _ & _ & _ & _ & _ & _ & _ & _ & Hlevel & _).
  exact Hlevel.
Defined.

(** The five cards the models tab shows for that report, all in the HIGH
    colour. *)
Lemma enron_demo_cards toFixed numToString identifier :
  isEnron identifier = true ->
  map (fun c => (score_label c, value_class c, indicator_text c))
      (displayModels toFixed numToString (generateDemoData identifier))
  = [ ("Beneish M-Score", "risk-high", "Likely Manipulator");
      ("Altman Z-Score", "risk-high", "Distress Zone");
      ("Piotroski F-Score", "risk-high", "Weak");
      ("Fraud Triangle Risk", "risk-high", "HIGH");
      ("Benford's Law Deviation", "risk-high", "Anomaly Detected") ].
Proof.
  intros H. unfold generateDemoData. rewrite H. reflexivity.
Qed.

(** Any other identifier gets the LOW report without red flags. *)
Lemma other_demo_report identifier :
  isEnron identifier = false ->
  riskLevel (generateDemoData identifier) = "LOW" /\
  Report.red_flags (generateDemoData identifier) = Val [].
Proof.
  intros H. unfold generateDemoData, riskLevel, overviewRisk. rewrite H.
  split; reflexivity.
Qed.

(** C8: two runs of the demo analysis for the same identifier store the same
    report, whatever the state of the page and the clock at each run; in
    particular the composite score and level are the same.  The report is a
    function of the identifier alone. *)
Theorem demo_report_deterministic identifier now1 now2 s1 s2 :
  let r1 := currentData (demoAnalysis identifier now1 s1) in
  let r2 := currentData (demoAnalysis identifier now2 s2) in
  r1 = r2 /\
  r1 = Val (generateDemoData identifier) /\
  optChain (optChain r1 Report.overall_risk) Risk.score =
  optChain (optChain r2 Report.overall_risk) Risk.score /\
  optChain (optChain r1 Report.overall_risk) Risk.level =
  optChain (optChain r2 Report.overall_risk) Risk.level.
Proof.
  unfold demoAnalysis. cbn [currentData]. repeat split; reflexivity.
Qed.

End DemoReport.

(** * Classification of the model scores *)

Section Classification.

Local Open Scope float_scope.
Import FloatOrder.

Ltac bands :=
  unfold beneishRiskClass, beneishBgClass, beneishIndicator,
    altmanZone, altmanRiskClass, altmanBgClass,
    piotroskiRiskClass, piotroskiBgClass, piotroskiIndicator,
    fraudTriangleRiskClass, fraudTriangleBgClass,
    greaterThan, lessThan, greaterEq, lessEq, lit, toNumber.

(** The Beneish card at the middle of the documented grey zone: the
    specification's reading says MODERATE, the card says HIGH. *)
Lemma beneish_grey_zone_is_high :
  Beneish.m_score beneishGrey = Val (-2) /\
  specBeneishBand (-2) = MODERATE /\
  beneishRiskClass beneishGrey = riskClassOf HIGH /\
  beneishBgClass beneishGrey = "bg-high"%string /\
  beneishIndicator beneishGrey = "Likely Manipulator"%string /\
  String.eqb (beneishRiskClass beneishGrey)
             (riskClassOf (specBeneishBand (-2))) = false.
Proof. repeat split; reflexivity. Qed.

(** C2 (as the code has it): a computed M-Score is classified on the single
    threshold -2.22.  M > -2.22 is HIGH, "Likely Manipulator"; M <= -2.22 is
    LOW, "Unlikely Manipulator"; no score is classified MODERATE. *)
Theorem beneish_single_threshold b m :
  Beneish.m_score b = Val m ->
  ((-2.22 <? m) = true ->
     beneishRiskClass b = riskClassOf HIGH /\
     beneishBgClass b = "bg-high"%string /\
     beneishIndicator b = "Likely Manipulator"%string) /\
  ((m <=? -2.22) = true ->
     beneishRiskClass b = riskClassOf LOW /\
     beneishBgClass b = "bg-low"%string /\
     beneishIndicator b = "Unlikely Manipulator"%string) /\
  String.eqb (beneishRiskClass b) (riskClassOf MODERATE) = false.
Proof.
  intros Hm. bands. rewrite Hm. repeat split.
  1-3: rewrite H; reflexivity.
  1-3: apply leb_not_gtb in H; rewrite H; reflexivity.
  destruct (-2.22 <? m); reflexivity.
Qed.

Lemma beneish_single_threshold_witness :
  beneishRiskClass beneishGrey = riskClassOf HIGH /\
  beneishBgClass beneishGrey = "bg-high"%string /\
  beneishIndicator beneishGrey = "Likely Manipulator"%string.
Proof.
  destruct (beneish_single_threshold beneishGrey (-2) eq_refl) as [H _].
  apply H. reflexivity.
Defined.

(** C3: a Z-Score above 2.99 is in the Safe zone (LOW), one below 1.81 in the
    Distress zone (HIGH), and everything from 1.81 to 2.99, both ends
    included, in the Gray zone (MODERATE): Z = 1.81 is not Distress and
    Z = 2.99 is not Safe. *)
Theorem altman_zones a z :
  Altman.z_score a = Val z ->
  ((2.99 <? z) = true ->
     altmanZone a = "Safe"%string /\
     altmanRiskClass a = riskClassOf LOW /\
     altmanBgClass a = "bg-low"%string) /\
  ((z <? 1.81) = true ->
     altmanZone a = "Distress"%string /\
     altmanRiskClass a = riskClassOf HIGH /\
     altmanBgClass a = "bg-high"%string) /\
  ((1.81 <=? z) = true -> (z <=? 2.99) = true ->
     altmanZone a = "Gray"%string /\
     altmanRiskClass a = riskClassOf MODERATE /\
     altmanBgClass a = "bg-moderate"%string) /\
  (z = 1.81 \/ z = 2.99 ->
     altmanZone a = "Gray"%string /\
     altmanRiskClass a = riskClassOf MODERATE /\
     altmanBgClass a = "bg-moderate"%string).
Proof.
  intros Hz. bands. rewrite Hz.
  assert (Hgray : (1.81 <=? z) = true -> (z <=? 2.99) = true ->
                  (2.99 <? z) = false /\ (z <? 1.81) = false).
  { intros Hlo Hhi. split; now apply leb_not_gtb. }
  split; [|split; [|split]].
  - intros H.
    assert (Hd : (z <? 1.81) = false).
    { destruct (z <? 1.81) eqn:E; [|reflexivity].
      pose proof (ltb_trans _ _ _ H E) as Habs. vm_compute in Habs.
      discriminate. }
    rewrite H, Hd. repeat split; reflexivity.
  - intros H.
    assert (Hs : (2.99 <? z) = false).
    { destruct (2.99 <? z) eqn:E; [|reflexivity].
      pose proof (ltb_trans _ _ _ E H) as Habs. vm_compute in Habs.
      discriminate. }
    rewrite H, Hs. repeat split; reflexivity.
  - intros Hlo Hhi. destruct (Hgray Hlo Hhi) as [Hs Hd].
    rewrite Hs, Hd. repeat split; reflexivity.
  - intros [-> | ->]; repeat split; reflexivity.
Qed.

Lemma altman_zones_witness :
  altmanZone (Altman.mk (Val 1.81) Undefined) = "Gray"%string /\
  altmanZone (Altman.mk (Val 2.99) Undefined) = "Gray"%string /\
  altmanZone (Altman.mk (Val 1.25) Undefined) = "Distress"%string /\
  altmanZone (Altman.mk (Val 3.45) Undefined) = "Safe"%string.
Proof.
  split; [|split; [|split]].
  - destruct (altman_zones (Altman.mk (Val 1.81) Undefined) 1.81 eq_refl)
      as (_ & _ & _ & H).
    apply H. left. reflexivity.
  - destruct (altman_zones (Altman.mk (Val 2.99) Undefined) 2.99 eq_refl)
      as (_ & _ & H & _).
    apply H; reflexivity.
  - destruct (altman_zones (Altman.mk (Val 1.25) Undefined) 1.25 eq_refl)
      as (_ & H & _).
    apply H; reflexivity.
  - destruct (altman_zones (Altman.mk (Val 3.45) Undefined) 3.45 eq_refl)
      as (H & _).
    apply H; reflexivity.
Defined.

(** C6: an F-Score from 0 to 3 is Weak (HIGH risk), from 4 to 6 Moderate, and
    from 7 to 9 Strong (LOW risk); F = 0 is Weak and F = 9 is Strong. *)
Theorem piotroski_bands p f :
  Piotroski.f_score p = Val f ->
  ((0 <=? f) = true -> (f <=? 3) = true ->
     piotroskiIndicator p = "Weak"%string /\
     piotroskiRiskClass p = riskClassOf HIGH /\
     piotroskiBgClass p = "bg-high"%string) /\
  ((4 <=? f) = true -> (f <=? 6) = true ->
     piotroskiIndicator p = "Moderate"%string /\
     piotroskiRiskClass p = riskClassOf MODERATE /\
     piotroskiBgClass p = "bg-moderate"%string) /\
  ((7 <=? f) = true -> (f <=? 9) = true ->
     piotroskiIndicator p = "Strong"%string /\
     piotroskiRiskClass p = riskClassOf LOW /\
     piotroskiBgClass p = "bg-low"%string) /\
  (f = 0 ->
     piotroskiIndicator p = "Weak"%string /\
     piotroskiRiskClass p = riskClassOf HIGH) /\
  (f = 9 ->
     piotroskiIndicator p = "Strong"%string /\
     piotroskiRiskClass p = riskClassOf LOW).
Proof.
  intros Hf. bands. rewrite Hf.
  split; [|split; [|split; [|split]]].
  - intros _ H3.
    assert (H7 : (7 <=? f) = false).
    { destruct (7 <=? f) eqn:E; [|reflexivity].
      pose proof (leb_trans _ _ _ E H3) as Habs. vm_compute in Habs.
      discriminate. }
    rewrite H7, H3. repeat split; reflexivity.
  - intros H4 H6.
    assert (H7 : (7 <=? f) = false).
    { destruct (7 <=? f) eqn:E; [|reflexivity].
      pose proof (leb_trans _ _ _ E H6) as Habs. vm_compute in Habs.
      discriminate. }
    assert (H3 : (f <=? 3) = false).
    { destruct (f <=? 3) eqn:E; [|reflexivity].
      pose proof (leb_trans _ _ _ H4 E) as Habs. vm_compute in Habs.
      discriminate. }
    rewrite H7, H3. repeat split; reflexivity.
  - intros H7 _. rewrite H7. repeat split; reflexivity.
  - intros ->. split; reflexivity.
  - intros ->. split; reflexivity.
Qed.

Lemma piotroski_bands_witness :
  piotroskiIndicator (Piotroski.mk (Val 0)) = "Weak"%string /\
  piotroskiIndicator (Piotroski.mk (Val 5)) = "Moderate"%string /\
  piotroskiIndicator (Piotroski.mk (Val 9)) = "Strong"%string.
Proof.
  split; [|split].
  - destruct (piotroski_bands (Piotroski.mk (Val 0)) 0 eq_refl) as (H & _).
    apply H; reflexivity.
  - destruct (piotroski_bands (Piotroski.mk (Val 5)) 5 eq_refl) as (_ & H & _).
    apply H; reflexivity.
  - destruct (piotroski_bands (Piotroski.mk (Val 9)) 9 eq_refl)
      as (_ & _ & H & _).
    apply H; reflexivity.
Defined.

(** C7: for a risk score in [0,1] the card is coloured LOW up to 0.3
    included, MODERATE above 0.3 and up to 0.6 included, and HIGH above
    0.6. *)
Theorem fraud_triangle_bands ft x :
  FraudTriangle.risk_score ft = Val x ->
  (0 <=? x) = true -> (x <=? 1) = true ->
  ((x <=? 0.3) = true ->
     fraudTriangleRiskClass ft = riskClassOf LOW /\
     fraudTriangleBgClass ft = "bg-low"%string) /\
  ((0.3 <? x) = true -> (x <=? 0.6) = true ->
     fraudTriangleRiskClass ft = riskClassOf MODERATE /\
     fraudTriangleBgClass ft = "bg-moderate"%string) /\
  ((0.6 <? x) = true ->
     fraudTriangleRiskClass ft = riskClassOf HIGH /\
     fraudTriangleBgClass ft = "bg-high"%string).
Proof.
  intros Hx _ _. bands. rewrite Hx.
  split; [|split].
  - intros H3.
    assert (H6 : (0.6 <? x) = false).
    { destruct (0.6 <? x) eqn:E; [|reflexivity].
      pose proof (ltb_leb_trans _ _ _ E H3) as Habs. vm_compute in Habs.
      discriminate. }
    rewrite H6, (leb_not_gtb _ _ H3). split; reflexivity.
  - intros H3 H6. rewrite (leb_not_gtb _ _ H6), H3. split; reflexivity.
  - intros H6. rewrite H6. split; reflexivity.
Qed.

Lemma fraud_triangle_bands_witness :
  fraudTriangleRiskClass
    (FraudTriangle.mk (Val 0.3) Undefined Undefined Undefined Undefined)
  = riskClassOf LOW /\
  fraudTriangleRiskClass
    (FraudTriangle.mk (Val 0.6) Undefined Undefined Undefined Undefined)
  = riskClassOf MODERATE /\
  fraudTriangleRiskClass
    (FraudTriangle.mk (Val 0.78) (Val "HIGH"%string) Undefined Undefined Undefined)
  = riskClassOf HIGH.
Proof.
  split; [|split].
  - destruct (fraud_triangle_bands
                (FraudTriangle.mk (Val 0.3) Undefined Undefined Undefined Undefined)
                0.3 eq_refl eq_refl eq_refl) as (H & _).
    apply H. reflexivity.
  - destruct (fraud_triangle_bands
                (FraudTriangle.mk (Val 0.6) Undefined Undefined Undefined Undefined)
                0.6 eq_refl eq_refl eq_refl) as (_ & H & _).
    apply H; reflexivity.
  - destruct (fraud_triangle_bands
                (FraudTriangle.mk (Val 0.78) (Val "HIGH"%string)
                                  Undefined Undefined Undefined)
                0.78 eq_refl eq_refl eq_refl) as (_ & _ & H).
    apply H. reflexivity.
Defined.

(** The text beside the colour is the report's own [risk_level], whatever
    the score. *)
Lemma fraud_triangle_indicator_text score level p o r :
  truthy level = true ->
  fraudTriangleIndicator (FraudTriangle.mk score (Val level) p o r) = level.
Proof.
  intros H. unfold fraudTriangleIndicator, orElse. cbn. now rewrite H.
Qed.

End Classification.

(** * Benford's Law card *)

Section BenfordCard.

(** Two results with the same deviation are classified differently, so the
    class is not a banding of the deviation. *)
Lemma benford_same_deviation_two_classes :
  Benford.deviation benfordFlagged = Benford.deviation benfordUnflagged /\
  benfordRiskClass benfordFlagged = riskClassOf HIGH /\
  benfordIndicator benfordFlagged = "Anomaly Detected" /\
  benfordRiskClass benfordUnflagged = riskClassOf LOW /\
  benfordIndicator benfordUnflagged = "Normal".
Proof. repeat split. Qed.

(** Whatever the two thresholds, some result is classified otherwise than
    the banding of its deviation says. *)
Lemma benford_no_thresholds low high :
  exists bf d,
    Benford.deviation bf = Val d /\
    String.eqb (benfordRiskClass bf) (riskClassOf (specBenfordBand low high d))
    = false.
Proof.
  destruct (specBenfordBand low high 8.5%float) eqn:E.
  - exists benfordFlagged, 8.5%float. rewrite E. split; reflexivity.
  - exists benfordFlagged, 8.5%float. rewrite E. split; reflexivity.
  - exists benfordUnflagged, 8.5%float. rewrite E. split; reflexivity.
Qed.

(** C4 (as the code has it): the Benford card has two classes, chosen by the
    [suspicious] flag of the report as it is: a truthy flag gives "Anomaly
    Detected" (HIGH), anything else "Normal" (LOW).  The deviation is shown
    and never compared with a threshold: changing it changes no class, and no
    result is MODERATE.  The demo generator sets the flag from the identifier,
    not from the deviation. *)
Theorem benford_follows_flag bf deviation' identifier :
  ((isTruthy (Benford.suspicious bf) = true /\
    benfordRiskClass bf = riskClassOf HIGH /\
    benfordBgClass bf = "bg-high" /\
    benfordIndicator bf = "Anomaly Detected") \/
   (isTruthy (Benford.suspicious bf) = false /\
    benfordRiskClass bf = riskClassOf LOW /\
    benfordBgClass bf = "bg-low" /\
    benfordIndicator bf = "Normal")) /\
  benfordRiskClass (Benford.mk deviation' (Benford.suspicious bf))
  = benfordRiskClass bf /\
  benfordIndicator (Benford.mk deviation' (Benford.suspicious bf))
  = benfordIndicator bf /\
  String.eqb (benfordRiskClass bf) (riskClassOf MODERATE) = false /\
  optChain (optChain (Report.models (generateDemoData identifier)) Models.benford)
           Benford.suspicious
  = Val (isEnron identifier).
Proof.
  unfold benfordRiskClass, benfordBgClass, benfordIndicator.
  cbn [Benford.suspicious].
  destruct (isTruthy (Benford.suspicious bf)).
  - split; [left|]; repeat split.
  - split; [right|]; repeat split.
Qed.

End BenfordCard.

(** * Zero and absent scores *)

(** The overview reads an absent composite score as the number 0, the same
    number it reads from a score of zero; so does the Piotroski card. *)
Lemma absent_score_read_as_zero :
  riskScore (reportWithScore Undefined) = 0%float /\
  riskScore (reportWithScore Null) = 0%float /\
  riskScore (reportWithScore (Val 0%float)) = 0%float /\
  piotroskiShown (Piotroski.mk Undefined) = 0%float /\
  piotroskiShown (Piotroski.mk (Val 0%float)) = 0%float.
Proof. repeat split. Qed.

(** The CSV export writes a zero score as the empty cell it writes for an
    absent one. *)
Lemma csv_zero_score_exported_empty :
  csvRows (reportWithFScore (Val 0%float)) = csvRows (reportWithFScore Undefined) /\
  In [CStr "Piotroski F-Score"; CStr ""] (csvRows (reportWithFScore (Val 0%float))) /\
  csvRows (reportWithScore (Val 0%float)) = csvRows (reportWithScore Undefined) /\
  In [CStr "Overall Risk Score"; CStr ""] (csvRows (reportWithScore (Val 0%float))).
Proof.
  split; [reflexivity|]. split; [|split; [reflexivity|]]; cbn; tauto.
Qed.

Section ZeroAndAbsent.

Variable toFixed : float -> nat -> string.
Variable numToString : float -> string.

Lemma overviewRisk_withScore score data :
  overviewRisk (withScore score data) =
  Risk.mk score (Risk.level (overviewRisk data)) (Risk.summary (overviewRisk data)).
Proof. reflexivity. Qed.

Lemma riskLevel_withScore score data :
  riskLevel (withScore score data) = riskLevel data.
Proof. reflexivity. Qed.

(** The text of a present score on a card. *)
Lemma fixed2OrNA_present x :
  fixed2OrNA toFixed (Val x)
  = if String.eqb (toFixed x 2) "" then "N/A" else toFixed x 2.
Proof.
  unfold fixed2OrNA, optCall, orElse, truthy, truthy_string.
  now destruct (String.eqb (toFixed x 2) "").
Qed.

(** C5 (as the code has it): zero and absent scores are not kept apart.

    - Composite score (overview and the "Score:" line of the HTML report): it
      is read as [score || 0], so an undefined, a null and a zero score all
      show as the formatted number 0; a truthy score shows its own value.
    - Piotroski card: it shows [f_score || 0], so undefined, null and 0 all
      show 0; a null F-Score is banded as 0 is (Weak, risk-high), an undefined
      one as Moderate.
    - Beneish, Altman and Benford cards: an undefined or null score shows
      "N/A" ("N/A%" for Benford), a present one its [toFixed(2)] text; the
      band still compares the raw value, where null counts as 0 (Likely
      Manipulator; Distress Zone) and undefined fails every test (Unlikely
      Manipulator; Gray Zone).
    - Fraud Triangle card: a null score shows as 0 per cent, an undefined one
      as [toFixed] of NaN; both are risk-low.
    - Model table of the HTML report: an absent M-Score or Z-Score prints
      "undefined", an absent F-Score "undefined" or "null", with the same
      bands.
    - CSV export: an undefined or null score is written as an empty cell, not
      as 0. *)
Theorem absent_score_rendering data x :
  (forall absent, In absent [Undefined; Null; Val 0%float] ->
     displayOverview toFixed numToString (withScore absent data)
     = displayOverview toFixed numToString (withScore (Val 0%float) data) /\
     score_text (displayOverview toFixed numToString (withScore absent data))
     = toFixed 0%float 0 ++ "%" /\
     htmlScoreText toFixed (withScore absent data) = toFixed 0%float 0 ++ "%") /\
  riskScore (withScore (Val x) data) = (if truthy x then x else 0%float) /\
  score_text (displayOverview toFixed numToString (withScore (Val x) data))
  = percent toFixed (if truthy x then x else 0%float) /\
  htmlScoreText toFixed (withScore (Val x) data)
  = percent toFixed (if truthy x then x else 0%float) /\
  (forall absent, In absent [Undefined; Null; Val 0%float] ->
     value_text (piotroskiCard numToString (Piotroski.mk absent))
     = numToString 0%float) /\
  piotroskiCard numToString (Piotroski.mk Null)
  = piotroskiCard numToString (Piotroski.mk (Val 0%float)) /\
  piotroskiCard numToString (Piotroski.mk (Val 0%float))
  = mkCard "risk-high" (numToString 0%float) "Piotroski F-Score"
           "bg-high" "Weak" (Some "Scale: 0-9") /\
  piotroskiCard numToString (Piotroski.mk Undefined)
  = mkCard "risk-moderate" (numToString 0%float) "Piotroski F-Score"
           "bg-moderate" "Moderate" (Some "Scale: 0-9") /\
  value_text (piotroskiCard numToString (Piotroski.mk (Val x)))
  = numToString (if truthy x then x else 0%float) /\
  (forall dsri gmi aqi sgi,
     beneishCard toFixed (Beneish.mk Undefined dsri gmi aqi sgi)
     = mkCard "risk-low" "N/A" "Beneish M-Score"
              "bg-low" "Unlikely Manipulator" (Some "Threshold: -2.22") /\
     beneishCard toFixed (Beneish.mk Null dsri gmi aqi sgi)
     = mkCard "risk-high" "N/A" "Beneish M-Score"
              "bg-high" "Likely Manipulator" (Some "Threshold: -2.22") /\
     value_text (beneishCard toFixed (Beneish.mk (Val x) dsri gmi aqi sgi))
     = (if String.eqb (toFixed x 2) "" then "N/A" else toFixed x 2)) /\
  (forall zone,
     altmanCard toFixed (Altman.mk Undefined zone)
     = mkCard "risk-moderate" "N/A" "Altman Z-Score"
              "bg-moderate" "Gray Zone" None /\
     altmanCard toFixed (Altman.mk Null zone)
     = mkCard "risk-high" "N/A" "Altman Z-Score"
              "bg-high" "Distress Zone" None /\
     value_text (altmanCard toFixed (Altman.mk (Val x) zone))
     = (if String.eqb (toFixed x 2) "" then "N/A" else toFixed x 2)) /\
  (forall suspicious,
     value_text (benfordCard toFixed (Benford.mk Undefined suspicious)) = "N/A%" /\
     value_text (benfordCard toFixed (Benford.mk Null suspicious)) = "N/A%" /\
     value_text (benfordCard toFixed (Benford.mk (Val x) suspicious))
     = (if String.eqb (toFixed x 2) "" then "N/A" else toFixed x 2) ++ "%") /\
  (forall level pressure opportunity rationalization,
     let card score :=
       fraudTriangleCard toFixed
         (FraudTriangle.mk score level pressure opportunity rationalization) in
     card Null = card (Val 0%float) /\
     value_text (card Null) = toFixed 0%float 0 ++ "%" /\
     value_text (card Undefined) = toFixed PrimFloat.nan 0 ++ "%" /\
     value_class (card Null) = "risk-low" /\
     value_class (card Undefined) = "risk-low") /\
  (forall b, optChain (Report.models data) Models.beneish = Val b ->
     (Beneish.m_score b = Undefined ->
      In ("Beneish M-Score", "undefined", "Unlikely Manipulator")
         (htmlModelRows toFixed numToString data)) /\
     (Beneish.m_score b = Null ->
      In ("Beneish M-Score", "undefined", "Likely Manipulator")
         (htmlModelRows toFixed numToString data)) /\
     (In (Beneish.m_score b) [Undefined; Null] ->
      In [CStr "Beneish M-Score"; CStr ""] (csvRows data))) /\
  (forall a, optChain (Report.models data) Models.altman = Val a ->
     (Altman.z_score a = Undefined ->
      In ("Altman Z-Score", "undefined", "Gray")
         (htmlModelRows toFixed numToString data)) /\
     (Altman.z_score a = Null ->
      In ("Altman Z-Score", "undefined", "Distress")
         (htmlModelRows toFixed numToString data)) /\
     (In (Altman.z_score a) [Undefined; Null] ->
      In [CStr "Altman Z-Score"; CStr ""] (csvRows data))) /\
  (forall p, optChain (Report.models data) Models.piotroski = Val p ->
     (Piotroski.f_score p = Undefined ->
      In ("Piotroski F-Score", "undefined", "Moderate")
         (htmlModelRows toFixed numToString data)) /\
     (Piotroski.f_score p = Null ->
      In ("Piotroski F-Score", "null", "Weak")
         (htmlModelRows toFixed numToString data)) /\
     (In (Piotroski.f_score p) [Undefined; Null] ->
      In [CStr "Piotroski F-Score"; CStr ""] (csvRows data))) /\
  (In (optChain (Report.overall_risk data) Risk.score) [Undefined; Null] ->
   In [CStr "Overall Risk Score"; CStr ""] (csvRows data)).
Proof.
  split.
  { intros absent Habsent.
    unfold displayOverview, htmlScoreText, percent.
    rewrite !riskLevel_withScore.
    unfold riskScore. rewrite !overviewRisk_withScore.
    destruct Habsent as [<-|[<-|[<-|[]]]]; repeat split. }
  do 3 (split; [reflexivity|]).
  split; [intros absent [<-|[<-|[<-|[]]]]; reflexivity|].
  do 4 (split; [reflexivity|]).
  split; [intros; repeat split; apply fixed2OrNA_present|].
  split; [intros; repeat split; apply fixed2OrNA_present|].
  split; [intros; repeat split;
          cbn [benfordCard value_text Benford.deviation];
          now rewrite fixed2OrNA_present|].
  split; [intros; repeat split|].
  split; [|split; [|split]].
  - intros b Hb. unfold htmlModelRows, csvRows. rewrite Hb.
    split; [|split]; intros Hs.
    + apply in_or_app. left. unfold beneishIndicator. rewrite Hs. now left.
    + apply in_or_app. left. unfold beneishIndicator. rewrite Hs. now left.
    + apply in_or_app. right. apply in_or_app. left.
      destruct Hs as [<-|[<-|[]]]; now left.
  - intros a Ha. unfold htmlModelRows, csvRows. rewrite Ha.
    split; [|split]; intros Hs.
    + apply in_or_app. right. apply in_or_app. left.
      unfold altmanZone. rewrite Hs. now left.
    + apply in_or_app. right. apply in_or_app. left.
      unfold altmanZone. rewrite Hs. now left.
    + do 2 (apply in_or_app; right). apply in_or_app. left.
      destruct Hs as [<-|[<-|[]]]; now left.
  - intros p Hp. unfold htmlModelRows, csvRows. rewrite Hp.
    split; [|split]; intros Hs.
    + do 2 (apply in_or_app; right).
      unfold piotroskiIndicator. rewrite Hs. now left.
    + do 2 (apply in_or_app; right).
      unfold piotroskiIndicator. rewrite Hs. now left.
    + do 3 (apply in_or_app; right). apply in_or_app. left.
      destruct Hs as [<-|[<-|[]]]; now left.
  - intros Hs. unfold csvRows. apply in_or_app. left.
    destruct Hs as [<-|[<-|[]]]; cbn; tauto.
Qed.

End ZeroAndAbsent.

(** * The history keeps at most 50 entries *)

Section History.

Lemma length_removelast {A} (l : list A) :
  List.length (removelast l) = pred (List.length l).
Proof.
  rewrite removelast_firstn_len, length_firstn. lia.
Qed.

(** What [addToHistory] does to a history of any length. *)
Lemma addToHistory_history identifier data now st :
  analysisHistory (addToHistory identifier data now st) =
  if (List.length (analysisHistory st) <? 50)%nat
  then historyEntry identifier data now :: analysisHistory st
  else historyEntry identifier data now :: removelast (analysisHistory st).
Proof.
  unfold addToHistory. cbn [analysisHistory List.length].
  destruct (analysisHistory st) as [|e h] eqn:E; [reflexivity|].
  change (50 <? S (List.length (e :: h)))%nat
    with (50 <=? List.length (e :: h))%nat.
  rewrite Nat.leb_antisym. destruct (List.length (e :: h) <? 50)%nat; reflexivity.
Qed.

Lemma addToHistory_stored identifier data now st :
  storedHistory (addToHistory identifier data now st) =
  Saved (analysisHistory (addToHistory identifier data now st)).
Proof. reflexivity. Qed.

Lemma addToHistory_length identifier data now st :
  List.length (analysisHistory st) <= 50 ->
  List.length (analysisHistory (addToHistory identifier data now st)) <= 50.
Proof.
  intros H. rewrite addToHistory_history.
  destruct (Nat.ltb_spec (List.length (analysisHistory st)) 50);
    cbn [List.length]; [lia|].
  rewrite length_removelast. lia.
Qed.

Lemma step_bounded st e : bounded st -> bounded (step st e).
Proof.
  unfold bounded. intros [Hh Hs]. destruct e as [identifier data now| | |]; cbn [step].
  - rewrite addToHistory_stored. split; now apply addToHistory_length.
  - unfold loadHistory. destruct (storedHistory st) eqn:E; cbn; rewrite ?E; auto with arith.
  - cbn. auto with arith.
  - unfold loadHistory, start. cbn [storedHistory analysisHistory].
    destruct (storedHistory st) eqn:E; cbn; auto with arith.
Qed.

Lemma fold_step_bounded events st :
  bounded st -> bounded (fold_left step events st).
Proof.
  revert st. induction events as [|e events IH]; intros st H; cbn.
  - exact H.
  - apply IH, step_bounded, H.
Qed.

Lemma run_bounded events : bounded (run events).
Proof.
  apply fold_step_bounded. unfold bounded, start. cbn. auto with arith.
Qed.

(** C9: after every call of [addToHistory] in the life of the page the
    history holds at most 50 entries and the entry just added is first; the
    earlier entries follow it unchanged, except that the last (oldest) one is
    dropped when 50 were already held. *)
Theorem history_capped events identifier data now :
  let before := analysisHistory (run events) in
  let after :=
    analysisHistory (addToHistory identifier data now (run events)) in
  let entry := historyEntry identifier data now in
  List.length after <= 50 /\
  hd_error after = Some entry /\
  ((List.length before < 50 /\ after = entry :: before) \/
   (List.length before = 50 /\ after = entry :: removelast before)).
Proof.
  intros before after entry.
  destruct (run_bounded events) as [Hb _]. fold before in Hb.
  split; [|split].
  - apply addToHistory_length. exact Hb.
  - subst after. rewrite addToHistory_history.
    destruct (_ <? _)%nat; reflexivity.
  - subst after. rewrite addToHistory_history. fold before. fold entry.
    destruct (Nat.ltb_spec (List.length before) 50).
    + left. auto.
    + right. split; [lia | reflexivity].
Qed.

(** A history longer than the cap (one that this script did not write) is
    not cut down to it: one entry goes in, one goes out. *)
Lemma addToHistory_over_cap identifier data now st :
  50 < List.length (analysisHistory st) ->
  List.length (analysisHistory (addToHistory identifier data now st)) =
  List.length (analysisHistory st).
Proof.
  intros H. rewrite addToHistory_history.
  destruct (Nat.ltb_spec (List.length (analysisHistory st)) 50); [lia|].
  cbn [List.length]. rewrite length_removelast. lia.
Qed.

End History.

(** * The normalised API URL has no trailing slash *)

Section ApiUrl.

Lemma length_app s1 s2 :
  String.length (s1 ++ s2) = String.length s1 + String.length s2.
Proof.
  induction s1 as [|c s1 IH]; simpl; [reflexivity | now rewrite IH].
Qed.

Lemma substring_0_0 s : substring 0 0 s = EmptyString.
Proof. destruct s; reflexivity. Qed.

Lemma substring_0_length s : substring 0 (String.length s) s = s.
Proof.
  induction s as [|c s IH]; simpl; [reflexivity | now rewrite IH].
Qed.

Lemma substring_skip p q n :
  substring (String.length p) n (p ++ q) = substring 0 n q.
Proof.
  induction p as [|c p IH]; simpl; [reflexivity | exact IH].
Qed.

Lemma substring_split s k :
  k <= String.length s ->
  substring 0 k s ++ substring k (String.length s - k) s = s.
Proof.
  revert k. induction s as [|c s IH]; intros [|k] Hk; simpl in *.
  - reflexivity.
  - lia.
  - now rewrite substring_0_length.
  - rewrite IH by lia. reflexivity.
Qed.

(** [endsWith] holds exactly of the strings that are something followed by
    the suffix, and [sliceOff] then gives that something. *)
Lemma endsWith_app p suffix : endsWith (p ++ suffix) suffix = true.
Proof.
  unfold endsWith. rewrite length_app.
  replace (String.length p + String.length suffix - String.length suffix)
    with (String.length p) by lia.
  rewrite substring_skip, substring_0_length, String.eqb_refl.
  rewrite andb_true_r. apply Nat.leb_le. lia.
Qed.

Lemma endsWith_inv s suffix :
  endsWith s suffix = true -> s = sliceOff s (String.length suffix) ++ suffix.
Proof.
  unfold endsWith, sliceOff. intros H. apply andb_prop in H as [Hlen Hsub].
  apply Nat.leb_le in Hlen. apply String.eqb_eq in Hsub.
  rewrite <- (substring_split s (String.length s - String.length suffix)) at 1
    by lia.
  replace (String.length s - (String.length s - String.length suffix))
    with (String.length suffix) by lia.
  now rewrite Hsub.
Qed.

Lemma endsWith_iff s suffix :
  endsWith s suffix = true <-> exists p, s = p ++ suffix.
Proof.
  split.
  - intros H. eexists. apply endsWith_inv, H.
  - intros [p ->]. apply endsWith_app.
Qed.

Lemma append_empty_r s : s ++ EmptyString = s.
Proof.
  induction s as [|c s IH]; simpl; [reflexivity | now rewrite IH].
Qed.

Lemma append_assoc s1 s2 s3 : (s1 ++ s2) ++ s3 = s1 ++ (s2 ++ s3).
Proof.
  induction s1 as [|c s1 IH]; simpl; [reflexivity | now rewrite IH].
Qed.

Lemma slashes_S_end n : slashes (S n) = slashes n ++ "/".
Proof.
  induction n as [|n IH]; [reflexivity|].
  change (slashes (S (S n))) with (String "/" (slashes (S n))).
  rewrite IH at 1. reflexivity.
Qed.

(** The loop stops on a string that does not end with a slash... *)
Lemma removeTrailingSlashes_no_slash url :
  endsWith (removeTrailingSlashes url) "/" = false.
Proof.
  funelim (removeTrailingSlashes url).
  - assumption.
  - exact Hends.
Qed.

(** ... and it has removed slashes only. *)
Lemma removeTrailingSlashes_strips url :
  exists n, url = removeTrailingSlashes url ++ slashes n.
Proof.
  funelim (removeTrailingSlashes url).
  - destruct H as [n Hn]. exists (S n).
    rewrite (endsWith_inv _ _ Hends) at 1. cbn [String.length].
    rewrite Hn at 1. rewrite slashes_S_end.
    now rewrite <- append_assoc.
  - exists 0. simpl. now rewrite append_empty_r.
Qed.

(** C10: whatever it is given, [normalizeApiUrl] returns a string that does
    not end with "/"; it returns the empty string for [undefined], [null] and
    the empty string. *)
Theorem normalizeApiUrl_no_trailing_slash (url : nullable string) :
  endsWith (normalizeApiUrl url) "/" = false /\
  (forall s, normalizeApiUrl url = s ++ "/" -> False) /\
  (forall u, url = Val u -> truthy u = true ->
     exists n,
       fold_left removeSuffix suffixesToRemove (trim u)
       = normalizeApiUrl url ++ slashes n) /\
  normalizeApiUrl Undefined = "" /\
  normalizeApiUrl Null = "" /\
  normalizeApiUrl (Val "") = "".
Proof.
  assert (H : endsWith (normalizeApiUrl url) "/" = false).
  { destruct url as [| |u]; try reflexivity.
    unfold normalizeApiUrl. destruct (negb (truthy u)); [reflexivity|].
    apply removeTrailingSlashes_no_slash. }
  split; [exact H|]. split; [|split; [|repeat split]].
  - intros s Hs. rewrite Hs, endsWith_app in H. discriminate.
  - intros u -> Hu. unfold normalizeApiUrl. rewrite Hu. cbn [negb].
    apply removeTrailingSlashes_strips.
Qed.

End ApiUrl.

(** * Letter case and white space *)

Section CaseAndSpace.

Ltac by_cases_on c :=
  destruct c as [[] [] [] [] [] [] [] []]; vm_compute; intuition congruence.

Lemma upper_idem c : upper (upper c) = upper c.
Proof. by_cases_on c. Qed.

Lemma isWhiteSpace_upper c : isWhiteSpace (upper c) = isWhiteSpace c.
Proof. by_cases_on c. Qed.

Lemma toUpperCase_idem s : toUpperCase (toUpperCase s) = toUpperCase s.
Proof.
  induction s as [|c s IH]; simpl; [reflexivity|].
  now rewrite upper_idem, IH.
Qed.

Lemma toUpperCase_empty s : toUpperCase s = EmptyString <-> s = EmptyString.
Proof. destruct s; simpl; split; congruence. Qed.

Lemma length_toUpperCase s : String.length (toUpperCase s) = String.length s.
Proof. induction s as [|c s IH]; simpl; congruence. Qed.

Lemma trimStart_toUpperCase s :
  trimStart (toUpperCase s) = toUpperCase (trimStart s).
Proof.
  induction s as [|c s IH]; simpl; [reflexivity|].
  rewrite isWhiteSpace_upper. destruct (isWhiteSpace c); [exact IH | reflexivity].
Qed.

Lemma eqb_empty_toUpperCase s :
  String.eqb (toUpperCase s) EmptyString = String.eqb s EmptyString.
Proof. destruct s; reflexivity. Qed.

Lemma trimEnd_toUpperCase s :
  trimEnd (toUpperCase s) = toUpperCase (trimEnd s).
Proof.
  induction s as [|c s IH]; simpl; [reflexivity|].
  rewrite isWhiteSpace_upper, IH, eqb_empty_toUpperCase.
  destruct (isWhiteSpace c && String.eqb (trimEnd s) EmptyString); reflexivity.
Qed.

Lemma trim_toUpperCase s : trim (toUpperCase s) = toUpperCase (trim s).
Proof.
  unfold trim. now rewrite trimStart_toUpperCase, trimEnd_toUpperCase.
Qed.

Lemma startsClean_trimStart s : startsClean (trimStart s) = true.
Proof.
  induction s as [|c s IH]; simpl; [reflexivity|].
  destruct (isWhiteSpace c) eqn:E; [exact IH | simpl; now rewrite E].
Qed.

Lemma trimStart_clean s : startsClean s = true -> trimStart s = s.
Proof.
  destruct s as [|c s]; simpl; [reflexivity|].
  destruct (isWhiteSpace c); [discriminate | reflexivity].
Qed.

Lemma startsClean_trimEnd s : startsClean s = true -> startsClean (trimEnd s) = true.
Proof.
  destruct s as [|c s]; simpl; [reflexivity|]. intros H.
  apply negb_true_iff in H. rewrite H. simpl. now rewrite H.
Qed.

Lemma trimEnd_idem s : trimEnd (trimEnd s) = trimEnd s.
Proof.
  induction s as [|c s IH]; simpl; [reflexivity|].
  destruct (isWhiteSpace c && String.eqb (trimEnd s) EmptyString) eqn:E;
    [reflexivity|].
  simpl. now rewrite IH, E.
Qed.

Lemma trim_idem s : trim (trim s) = trim s.
Proof.
  unfold trim.
  rewrite (trimStart_clean (trimEnd (trimStart s))).
  - apply trimEnd_idem.
  - apply startsClean_trimEnd, startsClean_trimStart.
Qed.

(** The digits of a CIK are not the upper-case form of anything else. *)
Lemma upper_digit c d :
  In d ["0"; "1"; "2"; "3"; "4"; "5"; "6"; "7"; "8"; "9"]%char ->
  upper c = d -> c = d.
Proof.
  intros Hd <-. revert Hd. by_cases_on c.
Qed.

Lemma toUpperCase_enron_cik s :
  toUpperCase s = "0001024401" -> s = "0001024401".
Proof.
  intros H.
  do 10 (destruct s as [|? s]; [discriminate|]).
  destruct s; [|discriminate]. simpl in H.
  injection H as H0 H1 H2 H3 H4 H5 H6 H7 H8 H9.
  repeat match goal with
         | E : upper _ = _ |- _ => apply upper_digit in E; [subst | simpl; tauto]
         end.
  reflexivity.
Qed.

End CaseAndSpace.

(** * The identifier a search analyses *)

Section SearchForm.

Lemma trim_requestedIdentifier form :
  trim (requestedIdentifier form) = requestedIdentifier form.
Proof.
  unfold requestedIdentifier. destruct (Form.use_cik form).
  - apply trim_idem.
  - now rewrite trim_toUpperCase, trim_idem.
Qed.

Lemma truthy_string_spec (s : string) : truthy s = false <-> s = EmptyString.
Proof.
  unfold truthy, truthy_string. rewrite negb_false_iff. apply String.eqb_eq.
Qed.

(** X1: [analyzeCompany] never analyses an empty identifier.  A field that is
    empty or white space only gives the warning and nothing else; otherwise
    the identifier is the field without the white space around it, in upper
    case for a ticker, analysed by the demo generator in demo mode and
    requested from the server only when the page is connected. *)
Theorem analyzeCompany_identifier form isDemoMode isConnected :
  let identifier := requestedIdentifier form in
  trim identifier = identifier /\
  (if Form.use_cik form then identifier = trim (Form.cik form)
   else identifier = toUpperCase (trim (Form.ticker form)) /\
        toUpperCase identifier = identifier) /\
  match analyzeCompany form isDemoMode isConnected with
  | Alert _ kind =>
      (identifier = "" /\ kind = "warning") \/
      (identifier <> "" /\ isDemoMode = false /\ isConnected = false /\
       kind = "error")
  | Demo analysed =>
      analysed = identifier /\ identifier <> "" /\ isDemoMode = true
  | Request key analysed =>
      analysed = identifier /\ identifier <> "" /\
      isDemoMode = false /\ isConnected = true /\
      key = (if Form.use_cik form then "cik" else "ticker")
  end.
Proof.
  intros identifier. split; [apply trim_requestedIdentifier|]. split.
  - subst identifier. unfold requestedIdentifier.
    destruct (Form.use_cik form); [reflexivity|].
    split; [reflexivity | apply toUpperCase_idem].
  - unfold analyzeCompany. fold identifier.
    destruct (truthy identifier) eqn:E; cbn [negb].
    + assert (Hne : identifier <> "").
      { intros H. apply truthy_string_spec in H. congruence. }
      destruct isDemoMode; [auto|].
      destruct isConnected; cbn [negb]; auto 10.
    + apply truthy_string_spec in E.
      destruct (Form.use_cik form); auto.
Qed.

(** The upper-case form of an identifier is recognised as Enron exactly when
    the identifier is. *)
Lemma isEnron_toUpperCase identifier :
  isEnron (toUpperCase identifier) = isEnron identifier.
Proof.
  unfold isEnron. rewrite toUpperCase_idem. f_equal.
  destruct (String.eqb_spec identifier "0001024401") as [->|Hne].
  - reflexivity.
  - apply String.eqb_neq. intros H. apply Hne, toUpperCase_enron_cik, H.
Qed.

(** The demo report depends on the identifier only through its name and
    through the test [isEnron]. *)
Lemma generateDemoData_scores a b :
  isEnron a = isEnron b ->
  Report.overall_risk (generateDemoData a) = Report.overall_risk (generateDemoData b) /\
  Report.models (generateDemoData a) = Report.models (generateDemoData b) /\
  Report.red_flags (generateDemoData a) = Report.red_flags (generateDemoData b) /\
  Report.trends (generateDemoData a) = Report.trends (generateDemoData b) /\
  Report.filings (generateDemoData a) = Report.filings (generateDemoData b) /\
  Report.recommendation (generateDemoData a)
  = Report.recommendation (generateDemoData b).
Proof.
  intros H. unfold generateDemoData. rewrite H. repeat split.
Qed.

(** X2: What [rerunAnalysis(identifier)] does with the argument it is called
    with.  An argument of ten characters that starts with [0] is put into the
    CIK field with the box ticked, any other into the ticker field with the
    box unticked; what was in the form before plays no part.  The analysis
    then reads the argument back trimmed, and in upper case when it went to
    the ticker field.  For an argument that is an identifier as
    [analyzeCompany] hands it to [addToHistory] (read from a form, not
    empty): in demo mode the analysis runs on the same identifier up to
    letter case (the very same when it was read from the ticker field or has
    the shape of a CIK), recognised as Enron exactly when the argument is, so
    with the same demo risk, model scores and red flags; on a connected page
    the request carries it under [cik] or [ticker] by the shape of the
    argument, whichever field it was first read from.  (How the history list
    passes the identifier, as text of an inline handler, is not part of this
    statement.) *)
Theorem rerunAnalysis_by_shape identifier form form' isDemoMode isConnected :
  let cikShaped :=
    startsWith identifier "0" && (String.length identifier =? 10)%nat in
  let again := requestedIdentifier (rerunForm identifier form) in
  rerunAnalysis identifier form isDemoMode isConnected
  = rerunAnalysis identifier form' isDemoMode isConnected /\
  Form.use_cik (rerunForm identifier form) = cikShaped /\
  again = (if cikShaped then trim identifier else toUpperCase (trim identifier)) /\
  (forall recorded : Form.t,
      identifier = requestedIdentifier recorded ->
      identifier <> "" ->
      toUpperCase again = toUpperCase identifier /\
      (Form.use_cik recorded = false \/ cikShaped = true -> again = identifier) /\
      isEnron again = isEnron identifier /\
      Report.overall_risk (generateDemoData again)
      = Report.overall_risk (generateDemoData identifier) /\
      Report.models (generateDemoData again)
      = Report.models (generateDemoData identifier) /\
      Report.red_flags (generateDemoData again)
      = Report.red_flags (generateDemoData identifier) /\
      rerunAnalysis identifier form true isConnected = Demo again /\
      rerunAnalysis identifier form false true
      = Request (if cikShaped then "cik" else "ticker") again /\
      rerunAnalysis identifier form false false
      = Alert "Not connected to server. Enable Demo Mode or configure connection."
              "error").
Proof.
  intros cikShaped again.
  assert (Hshape : again = if cikShaped then trim identifier
                           else toUpperCase (trim identifier)).
  { subst again cikShaped. unfold rerunForm, requestedIdentifier.
    destruct (startsWith identifier "0" && (String.length identifier =? 10)%nat);
      reflexivity. }
  assert (Hbox : Form.use_cik (rerunForm identifier form) = cikShaped).
  { subst cikShaped. unfold rerunForm.
    destruct (startsWith identifier "0" && (String.length identifier =? 10)%nat);
      reflexivity. }
  split; [|split; [exact Hbox | split; [exact Hshape|]]].
  - unfold rerunAnalysis, analyzeCompany, requestedIdentifier, rerunForm.
    destruct (startsWith identifier "0" && (String.length identifier =? 10)%nat);
      reflexivity.
  - intros recorded Hrec Hne.
    assert (Htrim : trim identifier = identifier)
      by (rewrite Hrec; apply trim_requestedIdentifier).
    assert (Hagain : again = identifier \/ again = toUpperCase identifier)
      by (rewrite Hshape, Htrim; destruct cikShaped; auto).
    assert (Hupper : toUpperCase again = toUpperCase identifier)
      by (destruct Hagain as [->| ->]; [reflexivity | apply toUpperCase_idem]).
    assert (Henron : isEnron again = isEnron identifier)
      by (destruct Hagain as [->| ->]; [reflexivity | apply isEnron_toUpperCase]).
    assert (Htruthy : truthy again = true).
    { destruct (truthy again) eqn:E; [reflexivity|].
      apply truthy_string_spec in E. rewrite E in Hupper.
      destruct identifier; [now contradiction Hne | discriminate]. }
    destruct (generateDemoData_scores _ _ Henron) as (H1 & H2 & H3 & _).
    split; [exact Hupper|]. split.
    { rewrite Hshape, Htrim. intros [Hticker|Hcik].
      - destruct cikShaped; [reflexivity|].
        rewrite Hrec. unfold requestedIdentifier. rewrite Hticker.
        apply toUpperCase_idem.
      - now rewrite Hcik. }
    split; [exact Henron|]. split; [exact H1|]. split; [exact H2|].
    split; [exact H3|].
    unfold rerunAnalysis, analyzeCompany. fold again. rewrite Htruthy, Hbox.
    repeat split.
Qed.

(** * Batches of tickers *)

Lemma filter_Forall {A} (f : A -> bool) (l : list A) :
  Forall (fun x => f x = true) (filter f l).
Proof.
  induction l as [|x l IH]; simpl; [constructor|].
  destruct (f x) eqn:E; [constructor; assumption | assumption].
Qed.

(** What a piece of the text area becomes. *)
Lemma batchTicker_piece p :
  let t := toUpperCase (trim p) in
  trim t = t /\ toUpperCase t = t /\ toUpperCase (trim t) = t.
Proof.
  intros t. subst t.
  assert (Htrim : trim (toUpperCase (trim p)) = toUpperCase (trim p))
    by now rewrite trim_toUpperCase, trim_idem.
  rewrite Htrim. repeat split; apply toUpperCase_idem.
Qed.

Lemma batchTickers_reread value :
  Forall (fun t => t <> "" /\ toUpperCase (trim t) = t) (batchTickers value).
Proof.
  unfold batchTickers.
  induction (split isTickerSeparator value) as [|p pieces IH]; simpl;
    [constructor|].
  destruct (0 <? String.length (toUpperCase (trim p)))%nat eqn:E; [|exact IH].
  constructor; [|exact IH]. split.
  - intros H. rewrite H in E. discriminate.
  - apply batchTicker_piece.
Qed.

(** X3: Every ticker of a batch is a non-empty name without white space around
    it and in upper case, so [analyzeCompany] reads it back from [#ticker]
    unchanged. *)
Theorem batchTickers_clean value form :
  Forall (fun t => t <> "" /\ trim t = t /\ toUpperCase t = t /\
                   toUpperCase (trim (Form.ticker (withTicker t form))) = t)
         (batchTickers value).
Proof.
  unfold batchTickers.
  set (pieces := split isTickerSeparator value). clearbody pieces.
  induction pieces as [|p pieces IH]; simpl; [constructor|].
  destruct (0 <? String.length (toUpperCase (trim p)))%nat eqn:E; [|exact IH].
  constructor; [|exact IH].
  destruct (batchTicker_piece p) as (Htrim & Hupper & Hread).
  repeat split.
  - intros H. rewrite H in E. discriminate.
  - exact Htrim.
  - exact Hupper.
  - cbn [withTicker Form.ticker]. exact Hread.
Qed.

(** X4: With the CIK box unticked, a batch on a connected page requests every
    ticker, in order, and in demo mode it analyses the first ticker only.
    With the box ticked the tickers are not read: every run analyses the CIK
    field instead. *)
Theorem runBatchAnalysis_runs value form isConnected :
  match batchTickers value with
  | [] =>
      forall isDemoMode,
        runBatchAnalysis value form isDemoMode isConnected
        = BatchWarning "Please enter at least one ticker symbol."
  | first :: rest =>
      let n := S (List.length rest) in
      runBatchAnalysis value form true isConnected
      = BatchRuns n [if Form.use_cik form then analyzeCompany form true isConnected
                     else Demo first] /\
      runBatchAnalysis value form false true
      = BatchRuns n (if Form.use_cik form
                     then repeat (analyzeCompany form false true) n
                     else map (Request "ticker") (first :: rest))
  end.
Proof.
  pose proof (batchTickers_reread value) as Hclean.
  unfold runBatchAnalysis.
  destruct (batchTickers value) as [|first rest] eqn:E; [reflexivity|].
  cbn zeta.
  assert (Hcik : Form.use_cik form = true ->
                 forall t d c, analyzeCompany (withTicker t form) d c
                               = analyzeCompany form d c).
  { intros H t d c. unfold analyzeCompany, requestedIdentifier.
    cbn [withTicker Form.use_cik Form.cik]. now rewrite H. }
  assert (Hrun : Form.use_cik form = false ->
                 forall t, t <> "" -> toUpperCase (trim t) = t ->
                 analyzeCompany (withTicker t form) true isConnected = Demo t /\
                 analyzeCompany (withTicker t form) false true
                 = Request "ticker" t).
  { intros H t Hne Ht. unfold analyzeCompany, requestedIdentifier.
    cbn [withTicker Form.use_cik Form.ticker]. rewrite H, Ht.
    destruct (truthy t) eqn:Et; [split; reflexivity|].
    apply truthy_string_spec in Et. contradiction. }
  destruct (Form.use_cik form) eqn:Ecik.
  - split; f_equal.
    + now rewrite Hcik.
    + cbn [List.length]. change (S (List.length rest)) with (List.length (first :: rest)).
      clear E Hclean. induction (first :: rest) as [|t l IH]; [reflexivity|].
      cbn [map List.length repeat]. now rewrite Hcik, IH.
  - split; f_equal.
    + inversion Hclean as [|? ? (Hne & Ht) _]; subst.
      f_equal. apply (Hrun eq_refl first Hne Ht).
    + clear E. induction Hclean as [|t l (Hne & Ht) _ IH]; [reflexivity|].
      cbn [map]. f_equal; [apply (Hrun eq_refl t Hne Ht) | exact IH].
Qed.

(** * The demo CIK lookup *)

(** X5: When the demo lookup finds a company it ticks the CIK box and fills the
    field with a ten-character CIK that begins with 0, which is what
    [analyzeCompany] will analyse and what [rerunAnalysis] will take for a
    CIK; that CIK is the one the demo generator knows as Enron exactly when
    the search term mentions Enron, in any letter case.  Otherwise the form
    is left as it was, under a warning. *)
Theorem searchCIKDemo_fills_cik field form :
  let result := searchCIKDemo field form in
  (snd result = form /\ exists message, fst result = Alert message "warning") \/
  (exists name cik,
      fst result = Alert ("Found: " ++ name ++ " - CIK: " ++ cik) "success" /\
      snd result = {| Form.ticker := Form.ticker form;
                      Form.cik := cik;
                      Form.use_cik := true |} /\
      startsWith cik "0" = true /\
      String.length cik = 10 /\
      requestedIdentifier (snd result) = cik /\
      rerunForm cik form = snd result /\
      isEnron cik = includes (toLowerCase (trim field)) "enron").
Proof.
  intros result. subst result. unfold searchCIKDemo.
  destruct (truthy (trim field)); cbn [negb];
    [|left; split; [reflexivity | eexists; reflexivity]].
  unfold demoLookup, demoResults. cbn [find fst].
  destruct (includes (toLowerCase (trim field)) "enron");
    [|destruct (includes (toLowerCase (trim field)) "worldcom");
      [|destruct (includes (toLowerCase (trim field)) "lehman")]];
    cbn [option_map snd fst];
    try (right; do 2 eexists; repeat split; reflexivity).
  left. split; [reflexivity | eexists; reflexivity].
Qed.

End SearchForm.

(** * Escaped text *)

Section EscapedText.

Ltac by_cases_on c :=
  destruct c as [[] [] [] [] [] [] [] []]; vm_compute; intuition congruence.

Lemma chars_app s1 s2 :
  list_ascii_of_string (s1 ++ s2)
  = (list_ascii_of_string s1 ++ list_ascii_of_string s2)%list.
Proof.
  induction s1 as [|c s1 IH]; simpl; [reflexivity | now rewrite IH].
Qed.

Lemma escapeChar_no_markup c :
  forallb (fun d => negb (isMarkup d)) (list_ascii_of_string (escapeChar c)) = true.
Proof. by_cases_on c. Qed.

Lemma escapeChar_plain c : isSpecial c = false -> escapeChar c = String c EmptyString.
Proof. by_cases_on c. Qed.

Lemma escapeChar_longer c :
  isSpecial c = true -> 1 < String.length (escapeChar c).
Proof.
  destruct c as [[] [] [] [] [] [] [] []]; vm_compute; intros H;
    try discriminate; repeat constructor.
Qed.

Lemma escapeChar_length c : 1 <= String.length (escapeChar c).
Proof.
  destruct (isSpecial c) eqn:E.
  - apply escapeChar_longer in E. lia.
  - rewrite (escapeChar_plain _ E). simpl. lia.
Qed.

Lemma serializeText_no_markup s :
  forallb (fun d => negb (isMarkup d)) (list_ascii_of_string (serializeText s)) = true.
Proof.
  induction s as [|c s IH]; simpl; [reflexivity|].
  now rewrite chars_app, forallb_app, escapeChar_no_markup, IH.
Qed.

Lemma serializeText_length s :
  String.length s <= String.length (serializeText s).
Proof.
  induction s as [|c s IH]; simpl; [lia|].
  rewrite length_app. pose proof (escapeChar_length c). lia.
Qed.

Lemma serializeText_plain s :
  forallb (fun c => negb (isSpecial c)) (list_ascii_of_string s) = true ->
  serializeText s = s.
Proof.
  induction s as [|c s IH]; simpl; [reflexivity|].
  intros H. apply andb_prop in H as [Hc Hs]. apply negb_true_iff in Hc.
  now rewrite (escapeChar_plain _ Hc), IH.
Qed.

Lemma serializeText_special s :
  forallb (fun c => negb (isSpecial c)) (list_ascii_of_string s) = false ->
  String.length s < String.length (serializeText s).
Proof.
  induction s as [|c s IH]; simpl; [discriminate|].
  intros H. rewrite length_app. apply andb_false_iff in H as [Hc|Hs].
  - apply negb_false_iff in Hc. apply escapeChar_longer in Hc.
    pose proof (serializeText_length s). lia.
  - pose proof (escapeChar_length c). specialize (IH Hs). lia.
Qed.

Lemma orElse_string_empty (s : string) : orElse (Val s) "" = s.
Proof.
  unfold orElse. destruct (truthy s) eqn:E; [reflexivity|].
  unfold truthy, truthy_string in E. apply negb_false_iff in E.
  apply String.eqb_eq in E. now subst.
Qed.

Lemma serializeText_app s t :
  serializeText (s ++ t) = serializeText s ++ serializeText t.
Proof.
  induction s as [|c s IH]; simpl; [reflexivity|].
  now rewrite IH, append_assoc.
Qed.

Lemma escapeHtml_Val s : escapeHtml (Val s) = serializeText s.
Proof.
  unfold escapeHtml. destruct (truthy s) eqn:E; [reflexivity|].
  unfold truthy, truthy_string in E. apply negb_false_iff in E.
  apply String.eqb_eq in E. now subst.
Qed.

(** X6: The text [escapeHtml] returns never holds [<] or [>], so it cannot open
    or close a tag.  An absent or empty text gives the empty string.  The
    four characters [&], [<], [>] and the no-break space become [&amp;],
    [&lt;], [&gt;] and [&nbsp;], and the text is escaped piece by piece.  A
    text without these four characters is returned as it is (quotes and
    backslashes included: they are not escaped); any other text comes back
    longer. *)
Theorem escapeHtml_no_markup str s t :
  forallb (fun c => negb (isMarkup c)) (list_ascii_of_string (escapeHtml str))
  = true /\
  escapeHtml Undefined = "" /\
  escapeHtml Null = "" /\
  escapeHtml (Val "") = "" /\
  escapeHtml (Val "&") = "&amp;" /\
  escapeHtml (Val "<") = "&lt;" /\
  escapeHtml (Val ">") = "&gt;" /\
  escapeHtml (Val (String nbsp "")) = "&nbsp;" /\
  escapeHtml (Val (s ++ t)) = escapeHtml (Val s) ++ escapeHtml (Val t) /\
  (if forallb (fun c => negb (isSpecial c)) (list_ascii_of_string (orElse str ""))
   then escapeHtml str = orElse str ""
   else String.length (orElse str "") < String.length (escapeHtml str)).
Proof.
  split; [|do 7 (split; [reflexivity|]); split].
  - destruct str as [| |u]; try reflexivity.
    rewrite escapeHtml_Val. apply serializeText_no_markup.
  - rewrite !escapeHtml_Val. apply serializeText_app.
  - destruct str as [| |u]; try reflexivity.
    rewrite escapeHtml_Val, orElse_string_empty.
    destruct (forallb _ _) eqn:F;
      [now apply serializeText_plain | now apply serializeText_special].
Qed.

End EscapedText.

(** * Class names of a risk level *)

Section LevelClasses.

Ltac by_cases_on c :=
  destruct c as [[] [] [] [] [] [] [] []]; vm_compute; intuition congruence.

Lemma upper_lower c : upper (lower c) = upper c.
Proof. by_cases_on c. Qed.

Lemma toUpperCase_toLowerCase s : toUpperCase (toLowerCase s) = toUpperCase s.
Proof.
  induction s as [|c s IH]; simpl; [reflexivity|].
  now rewrite upper_lower, IH.
Qed.

(** X7: [getRiskClass] and [getBgClass] read the level without regard to letter
    case and always agree: both name the same band, the one whose name is the
    level in some letter case, or both are empty, for an absent level and for
    a level that is none of the five. *)
Theorem riskClass_bgClass_agree level s :
  ((exists band,
       In band bandNames /\
       toUpperCase (orElse level "") = toUpperCase band /\
       getRiskClass level = "risk-" ++ band /\
       getBgClass level = "bg-" ++ band) \/
   (Forall (fun band => String.eqb (toUpperCase (orElse level ""))
                                   (toUpperCase band) = false) bandNames /\
    getRiskClass level = "" /\
    getBgClass level = "")) /\
  getRiskClass (Val (toUpperCase s)) = getRiskClass (Val s) /\
  getRiskClass (Val (toLowerCase s)) = getRiskClass (Val s) /\
  getBgClass (Val (toUpperCase s)) = getBgClass (Val s) /\
  getBgClass (Val (toLowerCase s)) = getBgClass (Val s) /\
  getRiskClass Undefined = "" /\
  getBgClass Null = "".
Proof.
  split.
  - unfold getRiskClass, getBgClass, bandNames.
    set (l := toUpperCase (orElse level "")).
    destruct (String.eqb_spec l "LOW") as [E1|N1];
      [left; exists "low"; rewrite E1; simpl; tauto|].
    destruct (String.eqb_spec l "MODERATE") as [E2|N2];
      [left; exists "moderate"; rewrite E2; simpl; tauto|].
    destruct (String.eqb_spec l "ELEVATED") as [E3|N3];
      [left; exists "elevated"; rewrite E3; simpl; tauto|].
    destruct (String.eqb_spec l "HIGH") as [E4|N4];
      [left; exists "high"; rewrite E4; simpl; tauto|].
    destruct (String.eqb_spec l "CRITICAL") as [E5|N5];
      [left; exists "critical"; rewrite E5; simpl; tauto|].
    right. split; [|split; reflexivity].
    repeat constructor; apply String.eqb_neq; assumption.
  - unfold getRiskClass, getBgClass. rewrite !orElse_string_empty.
    rewrite toUpperCase_idem, toUpperCase_toLowerCase. repeat split.
Qed.

End LevelClasses.

(** * Endpoint paths at the end of the API URL *)

Section ApiUrlEndpoints.

Lemma app_eq_app_string a b p t :
  a ++ b = p ++ t ->
  (exists q, t = q ++ b /\ a = p ++ q) \/ (exists q, b = q ++ t /\ p = a ++ q).
Proof.
  revert p. induction a as [|c a IH]; intros p H.
  - right. exists p. auto.
  - destruct p as [|d p].
    + left. exists (String c a). auto.
    + simpl in H. injection H as -> H.
      destruct (IH _ H) as [(q & -> & ->)|(q & -> & ->)];
        [left | right]; exists q; auto.
Qed.

(** A suffix of something followed by [b] either ends with [b] or is the
    end of [b]. *)
Lemma endsWith_app_cases a b t :
  endsWith (a ++ b) t = true -> endsWith t b = true \/ endsWith b t = true.
Proof.
  intros H. apply endsWith_iff in H as [p H].
  apply app_eq_app_string in H as [(q & -> & _)|(q & -> & _)];
    [left | right]; apply endsWith_app.
Qed.

Lemma substring_0_app a b : substring 0 (String.length a) (a ++ b) = a.
Proof.
  induction a as [|c a IH]; simpl; [apply substring_0_0 | now rewrite IH].
Qed.

Lemma removeSuffix_app a suffix : removeSuffix (a ++ suffix) suffix = a.
Proof.
  unfold removeSuffix, sliceOff. rewrite endsWith_app, length_app.
  replace (String.length a + String.length suffix - String.length suffix)
    with (String.length a) by lia.
  apply substring_0_app.
Qed.

Lemma removeSuffix_none url suffix :
  endsWith url suffix = false -> removeSuffix url suffix = url.
Proof. unfold removeSuffix. now intros ->. Qed.

Lemma removeTrailingSlashes_none url :
  endsWith url "/" = false -> removeTrailingSlashes url = url.
Proof.
  funelim (removeTrailingSlashes url); intros Hno.
  - congruence.
  - reflexivity.
Qed.

Lemma trimEnd_app a b :
  b <> "" -> trimEnd b = b -> trimEnd (a ++ b) = a ++ b.
Proof.
  intros Hne Hb. induction a as [|c a IH]; simpl; [exact Hb|].
  rewrite IH. destruct (a ++ b) eqn:E.
  - destruct a; simpl in E; [contradiction | discriminate].
  - now rewrite andb_false_r.
Qed.

Lemma startsClean_app a b :
  startsClean a = true -> startsClean b = true -> startsClean (a ++ b) = true.
Proof. destruct a; simpl; auto. Qed.

Lemma trim_app a b :
  startsClean a = true -> startsClean b = true ->
  b <> "" -> trimEnd b = b -> trim (a ++ b) = a ++ b.
Proof.
  intros Ha Hb Hne Hend. unfold trim.
  rewrite (trimStart_clean (a ++ b)) by now apply startsClean_app.
  now apply trimEnd_app.
Qed.

Lemma startsClean_trim s : startsClean (trim s) = true.
Proof. apply startsClean_trimEnd, startsClean_trimStart. Qed.

(** What [cleanBase] says, piece by piece. *)
Lemma cleanBase_spec base :
  cleanBase base = true ->
  trim base = base /\ startsClean base = true /\
  endsWith base "/" = false /\
  endsWith base "/api/health" = false /\
  endsWith base "/api/analyze" = false /\
  endsWith base "/api/filings" = false /\
  endsWith base "/api/" = false /\
  endsWith base "/api" = false.
Proof.
  unfold cleanBase. cbn [forallb suffixesToRemove]. intros H.
  repeat (apply andb_prop in H as [? H]).
  repeat match goal with
         | E : negb _ = true |- _ => apply negb_true_iff in E
         end.
  match goal with E : String.eqb _ _ = true |- _ => apply String.eqb_eq in E end.
  assert (Hclean : startsClean base = true).
  { match goal with E : trim base = base |- _ => rewrite <- E end.
    apply startsClean_trim. }
  repeat split; assumption.
Qed.

Ltac keep_url :=
  repeat match goal with
         | H : endsWith ?u ?s = false |- context [removeSuffix ?u ?s] =>
             rewrite (removeSuffix_none u s H)
         end.

Ltac mismatch :=
  match goal with
  | |- endsWith (?a ++ ?b) ?t = false =>
      let E := fresh in
      destruct (endsWith (a ++ b) t) eqn:E; [|reflexivity];
      apply endsWith_app_cases in E; vm_compute in E;
      destruct E; discriminate
  end.

(** A clean base URL is a fixed point. *)
Lemma normalizeApiUrl_clean base :
  cleanBase base = true -> normalizeApiUrl (Val base) = base.
Proof.
  intros Hclean.
  destruct (cleanBase_spec _ Hclean)
    as (Htrim & Hstart & Hslash & H1 & H2 & H3 & H4 & H5).
  unfold normalizeApiUrl. destruct (truthy base) eqn:E; cbn [negb].
  - cbv zeta. rewrite Htrim. cbn [fold_left suffixesToRemove].
    keep_url. now apply removeTrailingSlashes_none.
  - unfold truthy, truthy_string in E. apply negb_false_iff in E.
    now apply String.eqb_eq in E.
Qed.

Lemma normalizeApiUrl_endsWith url :
  endsWith (normalizeApiUrl url) "/" = false.
Proof.
  destruct url as [| |u]; try reflexivity.
  unfold normalizeApiUrl. destruct (negb (truthy u)); [reflexivity|].
  apply removeTrailingSlashes_no_slash.
Qed.

(** X8: A clean base URL comes back unchanged, and so does a clean base URL
    followed by any one of the endpoint paths [/api/health], [/api/analyze],
    [/api/filings], [/api/] and [/api]: the path is removed and nothing
    else. *)
Theorem normalizeApiUrl_strips_endpoint base suffix :
  cleanBase base = true ->
  In suffix suffixesToRemove ->
  normalizeApiUrl (Val (base ++ suffix)) = base /\
  normalizeApiUrl (Val base) = base.
Proof.
  intros Hclean Hin.
  destruct (cleanBase_spec _ Hclean)
    as (Htrim & Hstart & Hslash & H1 & H2 & H3 & H4 & H5).
  assert (Hfold : fold_left removeSuffix suffixesToRemove base = base).
  { cbn [fold_left suffixesToRemove].
    keep_url. reflexivity. }
  split.
  - assert (Hne : suffix <> "" /\ trimEnd suffix = suffix /\
                  startsClean suffix = true).
    { cbn in Hin. intuition (subst; (discriminate || reflexivity)). }
    destruct Hne as (Hne & Hend & Hs).
    unfold normalizeApiUrl.
    assert (Htruthy : truthy (base ++ suffix) = true).
    { unfold truthy, truthy_string. apply negb_true_iff, String.eqb_neq.
      destruct base; simpl; [assumption | discriminate]. }
    rewrite Htruthy. cbn [negb]. cbv zeta.
    rewrite (trim_app _ _ Hstart Hs Hne Hend).
    assert (Hloop : fold_left removeSuffix suffixesToRemove (base ++ suffix) = base).
    { cbn [fold_left suffixesToRemove].
      cbn in Hin. destruct Hin as [<-|[<-|[<-|[<-|[<-|[]]]]]].
      - rewrite removeSuffix_app. keep_url. reflexivity.
      - rewrite (removeSuffix_none (base ++ _) "/api/health") by mismatch.
        rewrite removeSuffix_app. keep_url. reflexivity.
      - rewrite (removeSuffix_none (base ++ _) "/api/health") by mismatch.
        rewrite (removeSuffix_none (base ++ _) "/api/analyze") by mismatch.
        rewrite removeSuffix_app. keep_url. reflexivity.
      - rewrite (removeSuffix_none (base ++ _) "/api/health") by mismatch.
        rewrite (removeSuffix_none (base ++ _) "/api/analyze") by mismatch.
        rewrite (removeSuffix_none (base ++ _) "/api/filings") by mismatch.
        rewrite removeSuffix_app. keep_url. reflexivity.
      - rewrite (removeSuffix_none (base ++ _) "/api/health") by mismatch.
        rewrite (removeSuffix_none (base ++ _) "/api/analyze") by mismatch.
        rewrite (removeSuffix_none (base ++ _) "/api/filings") by mismatch.
        rewrite (removeSuffix_none (base ++ _) "/api/") by mismatch.
        apply removeSuffix_app. }
    rewrite Hloop. now apply removeTrailingSlashes_none.
  - now apply normalizeApiUrl_clean.
Qed.

Lemma normalizeApiUrl_strips_endpoint_witness :
  normalizeApiUrl (Val ("http://localhost:8080" ++ "/api/health"))
  = "http://localhost:8080".
Proof.
  apply (normalizeApiUrl_strips_endpoint "http://localhost:8080" "/api/health").
  - reflexivity.
  - simpl. tauto.
Defined.

(** The function is not its own fixed point everywhere: one more endpoint
    path can be left at the end, which the next call removes. *)
Lemma normalizeApiUrl_twice :
  normalizeApiUrl (Val "http://x/api/api") = "http://x/api" /\
  normalizeApiUrl (Val "http://x/api") = "http://x".
Proof. split; reflexivity. Qed.

End ApiUrlEndpoints.

(** * Amounts and trends *)

Section AmountsAndTrends.

Local Open Scope float_scope.
Import FloatOrder.

Lemma SFcompare_refl_finite s m e :
  SFcompare (S754_finite s m e) (S754_finite s m e) = Some Eq.
Proof.
  simpl. rewrite Z.compare_refl.
  change (Pos.compare_cont Eq m m) with (Pos.compare m m).
  rewrite Pos.compare_refl. destruct s; reflexivity.
Qed.

Lemma SFeqb_refl p : p <> S754_nan -> SFeqb p p = true.
Proof.
  destruct p as [s|s| |s m e]; intros H.
  - reflexivity.
  - destruct s; reflexivity.
  - contradiction.
  - unfold SFeqb. now rewrite SFcompare_refl_finite.
Qed.

Lemma is_nan_spec x : is_nan x = false <-> Prim2SF x <> S754_nan.
Proof.
  unfold is_nan. rewrite negb_false_iff, FloatAxioms.eqb_spec. split.
  - intros H E. rewrite E in H. discriminate.
  - apply SFeqb_refl.
Qed.

Lemma is_zero_spec x :
  is_zero x = true <-> exists s, Prim2SF x = S754_zero s.
Proof.
  unfold is_zero. rewrite FloatAxioms.eqb_spec.
  change (Prim2SF PrimFloat.zero) with (S754_zero false).
  destruct (Prim2SF x) as [s|s| |s m e]; cbn; split;
    try discriminate; try (intros [? ?]; discriminate); eauto.
  - destruct s; discriminate.
  - destruct s; discriminate.
Qed.

(** A number that [abs] puts strictly above zero is neither a zero nor
    NaN... *)
Lemma abs_pos x :
  (0 <? abs x) = true -> is_zero x = false /\ is_nan x = false.
Proof.
  rewrite ltb_spec, abs_spec. change (Prim2SF 0) with (S754_zero false).
  intros H. split.
  - destruct (is_zero x) eqn:E; [|reflexivity].
    apply is_zero_spec in E as [s E]. rewrite E in H. discriminate.
  - apply is_nan_spec. intros E. rewrite E in H. discriminate.
Qed.

(** ... and one that [abs] puts below a bound is not NaN. *)
Lemma abs_below x c : (abs x <? c) = true -> is_nan x = false.
Proof.
  rewrite ltb_spec, abs_spec. intros H.
  apply is_nan_spec. intros E. rewrite E in H. discriminate.
Qed.

Lemma abs_at_least x c :
  (0 <? c) = true -> (c <=? abs x) = true ->
  parseFloatOfNumber x = x /\ is_nan x = false.
Proof.
  intros Hc Hx. pose proof (ltb_leb_trans _ _ _ Hc Hx) as Hpos.
  apply abs_pos in Hpos as [Hz Hn]. unfold parseFloatOfNumber.
  now rewrite Hz.
Qed.

Variable toFixed : float -> nat -> string.

Ltac contradict_order :=
  match goal with
  | H1 : (?a <=? ?x) = true, H2 : (?x <? ?b) = true |- _ =>
      let H := fresh in
      pose proof (leb_ltb_trans _ _ _ H1 H2) as H; vm_compute in H; discriminate
  end.

(** X9: An amount is shown in billions from 1e9 up, in millions from 1e6, in
    thousands from 1e3 and plainly below, by its absolute value and always
    after a dollar sign; an amount that is absent, [null] or NaN is shown as
    a dash. *)
Theorem formatCurrency_units x :
  ((1e9 <=? abs x) = true ->
     formatCurrency toFixed (Val x)
     = ("$" ++ toFixed (x / 1e9)%float 2 ++ "B")%string) /\
  ((1e6 <=? abs x) = true -> (abs x <? 1e9) = true ->
     formatCurrency toFixed (Val x)
     = ("$" ++ toFixed (x / 1e6)%float 2 ++ "M")%string) /\
  ((1e3 <=? abs x) = true -> (abs x <? 1e6) = true ->
     formatCurrency toFixed (Val x)
     = ("$" ++ toFixed (x / 1e3)%float 2 ++ "K")%string) /\
  ((abs x <? 1e3) = true ->
     formatCurrency toFixed (Val x)
     = ("$" ++ toFixed (parseFloatOfNumber x) 2)%string) /\
  (is_nan x = true -> formatCurrency toFixed (Val x) = "-"%string) /\
  formatCurrency toFixed Undefined = "-"%string /\
  formatCurrency toFixed Null = "-"%string.
Proof.
  unfold formatCurrency.
  split; [|split; [|split; [|split; [|split; [|split]]]]]; try reflexivity.
  - intros H. destruct (abs_at_least x 1e9 eq_refl H) as [-> ->].
    cbv zeta. now rewrite H.
  - intros H Hlt.
    destruct (abs_at_least x 1e6 eq_refl H) as [-> ->]. cbv zeta.
    rewrite (ltb_not_geb _ _ Hlt), H. reflexivity.
  - intros H Hlt.
    destruct (abs_at_least x 1e3 eq_refl H) as [-> ->]. cbv zeta.
    rewrite (ltb_not_geb _ _ Hlt), H.
    destruct (1e9 <=? abs x) eqn:E; [contradict_order | reflexivity].
  - intros Hlt. unfold parseFloatOfNumber.
    destruct (is_zero x) eqn:Ez; cbv zeta; [reflexivity|].
    rewrite (abs_below _ _ Hlt), (ltb_not_geb _ _ Hlt).
    destruct (1e9 <=? abs x) eqn:E9; [contradict_order|].
    destruct (1e6 <=? abs x) eqn:E6; [contradict_order|].
    reflexivity.
  - intros Hnan. unfold parseFloatOfNumber.
    assert (Hz : is_zero x = false).
    { destruct (is_zero x) eqn:E; [|reflexivity].
      apply is_zero_spec in E as [s E].
      assert (Hn : is_nan x = false)
        by (apply is_nan_spec; rewrite E; discriminate).
      congruence. }
    rewrite Hz. cbv zeta. now rewrite Hnan.
Qed.

Lemma trendCard_cases label value :
  let card := trendCard label value in
  (trend_text card = "IMPROVING" /\ trend_class card = "risk-low" /\
   trend_arrow card = "^")%string \/
  (trend_text card = "DECLINING" /\ trend_class card = "risk-high" /\
   trend_arrow card = "v")%string \/
  (String.eqb (trend_text card) "IMPROVING" = false /\
   String.eqb (trend_text card) "DECLINING" = false /\
   trend_class card = "risk-moderate" /\ trend_arrow card = "-")%string.
Proof.
  destruct value as [| |t]; cbn; try (right; right; repeat split; reflexivity).
  unfold getTrendArrow, strictEq, orElse.
  destruct (String.eqb_spec t "IMPROVING") as [->|N1]; [left; repeat split|].
  destruct (String.eqb_spec t "DECLINING") as [->|N2];
    [right; left; repeat split|].
  right. right. destruct (truthy t); repeat split;
    try (apply String.eqb_neq; assumption); reflexivity.
Qed.

(** X10: The trends tab always shows the four cards Revenue, Net Income, Cash
    Flow and Debt Ratio, in this order.  A card is green with an up arrow
    only for the exact value IMPROVING and red with a down arrow only for
    DECLINING (the letter case matters here); anything else is amber with a
    dash, and a report without trends shows four times N/A. *)
Theorem displayTrends_cards data :
  map trend_label (displayTrends data)
  = ["Revenue"; "Net Income"; "Cash Flow"; "Debt Ratio"]%string /\
  Forall (fun card =>
            (trend_text card = "IMPROVING" /\ trend_class card = "risk-low" /\
             trend_arrow card = "^")%string \/
            (trend_text card = "DECLINING" /\ trend_class card = "risk-high" /\
             trend_arrow card = "v")%string \/
            (String.eqb (trend_text card) "IMPROVING" = false /\
             String.eqb (trend_text card) "DECLINING" = false /\
             trend_class card = "risk-moderate" /\
             trend_arrow card = "-")%string)
         (displayTrends data) /\
  match Report.trends data with
  | Val _ => True
  | Undefined | Null =>
      map (fun card => (trend_text card, trend_class card, trend_arrow card))
          (displayTrends data)
      = repeat ("N/A", "risk-moderate", "-")%string 4
  end.
Proof.
  split; [reflexivity|]. split.
  - unfold displayTrends.
    do 4 (apply Forall_cons; [apply trendCard_cases|]). apply Forall_nil.
  - unfold displayTrends. destruct (Report.trends data); auto.
Qed.

End AmountsAndTrends.

Lemma formatCurrency_units_witness :
  formatCurrency (fun _ _ => "1.50") (Val 1500000000%float) = "$1.50B".
Proof.
  destruct (formatCurrency_units (fun _ _ => "1.50") 1500000000%float)
    as [H _].
  apply H. reflexivity.
Defined.

(** * The logger *)

Module LoggerFacts.

Import Logger.

Ltac by_cases_on c :=
  destruct c as [[] [] [] [] [] [] [] []]; vm_compute; intuition congruence.

Lemma lower_upper c : lower (upper c) = lower c.
Proof. by_cases_on c. Qed.

Lemma toLowerCase_toUpperCase s : toLowerCase (toUpperCase s) = toLowerCase s.
Proof.
  induction s as [|c s IH]; simpl; [reflexivity|].
  now rewrite lower_upper, IH.
Qed.

Lemma length_tl {A} (l : list A) : List.length (tl l) = pred (List.length l).
Proof. destruct l; reflexivity. Qed.

Lemma logger_addToHistory_history levelName message now lg :
  logHistory (addToHistory levelName message now lg) =
  if (List.length (logHistory lg) <? maxHistory lg)%nat
  then (logHistory lg ++ [LogEntry.mk now levelName message])%list
  else tl (logHistory lg ++ [LogEntry.mk now levelName message])%list.
Proof.
  unfold addToHistory. cbn [logHistory]. rewrite List.length_app. cbn [List.length].
  replace (List.length (logHistory lg) + 1) with (S (List.length (logHistory lg)))
    by lia.
  change (maxHistory lg <? S (List.length (logHistory lg)))%nat
    with (maxHistory lg <=? List.length (logHistory lg))%nat.
  rewrite Nat.leb_antisym.
  destruct (List.length (logHistory lg) <? maxHistory lg)%nat; reflexivity.
Qed.

Lemma logger_addToHistory_length levelName message now lg :
  List.length (logHistory lg) <= maxHistory lg ->
  List.length (logHistory (addToHistory levelName message now lg))
  <= maxHistory lg.
Proof.
  intros H. rewrite logger_addToHistory_history.
  destruct (Nat.ltb_spec (List.length (logHistory lg)) (maxHistory lg)).
  - rewrite List.length_app. cbn. lia.
  - rewrite length_tl, List.length_app. cbn. lia.
Qed.

Lemma log_fields severity levelName args now lg :
  maxHistory (log severity levelName args now lg) = maxHistory lg /\
  level (log severity levelName args now lg) = level lg.
Proof. unfold log. destruct (enabled lg severity); split; reflexivity. Qed.

Lemma log_length severity levelName args now lg :
  List.length (logHistory lg) <= maxHistory lg ->
  List.length (logHistory (log severity levelName args now lg))
  <= maxHistory lg.
Proof.
  intros H. unfold log. destruct (enabled lg severity); [|exact H].
  now apply logger_addToHistory_length.
Qed.

Lemma log_capped severity levelName args now lg :
  capped lg -> capped (log severity levelName args now lg).
Proof.
  unfold capped. intros [Hm Hl].
  destruct (log_fields severity levelName args now lg) as [Hmax _].
  split; [congruence|].
  pose proof (log_length severity levelName args now lg) as Hlen.
  rewrite Hm in Hlen. now apply Hlen.
Qed.

(** The invariant: the limit is the one of the script and is kept. *)
Lemma step_capped lg c :
  capped lg -> capped (step lg c).
Proof.
  intros H. destruct c; cbn [step];
    unfold debug, info, warning, warn, warning, error, critical;
    try (now apply log_capped).
  destruct H as [Hm _]. split; [exact Hm | cbn; lia].
Qed.

Lemma run_capped calls : capped (run calls).
Proof.
  unfold run. assert (H : capped initial) by (unfold capped; cbn; lia).
  revert H. generalize initial.
  induction calls as [|c calls IH]; intros lg H; cbn; [exact H|].
  apply IH, step_capped, H.
Qed.

(** X11: The log history never holds more than 1000 entries.  A logging call
    whose severity the level lets through appends its entry at the end, the
    arguments joined by spaces, and drops the oldest entry when 1000 were
    already held; a call below the level changes nothing. *)
Theorem logger_history_capped calls severity levelName args now :
  let lg := run calls in
  let lg' := log severity levelName args now lg in
  let entry := LogEntry.mk now levelName (String.concat " " args) in
  List.length (logHistory lg') <= 1000 /\
  (if enabled lg severity then
     (List.length (logHistory lg) < 1000 /\
      logHistory lg' = (logHistory lg ++ [entry])%list) \/
     (List.length (logHistory lg) = 1000 /\
      logHistory lg' = (tl (logHistory lg) ++ [entry])%list)
   else lg' = lg).
Proof.
  intros lg lg' entry. destruct (run_capped calls) as [Hm Hl].
  fold lg in Hm, Hl. split.
  - subst lg'. rewrite <- Hm. apply log_length. now rewrite Hm.
  - subst lg'. unfold log. destruct (enabled lg severity); [|reflexivity].
    rewrite logger_addToHistory_history, Hm. fold entry.
    destruct (Nat.ltb_spec (List.length (logHistory lg)) 1000).
    + left. auto.
    + right. split; [lia|].
      destruct (logHistory lg); [cbn in *; lia | reflexivity].
Qed.

(** X12: A logger whose level is NONE, or the object that [setLevel] stores for
    an inherited name, records nothing, whatever is logged. *)
Theorem logger_silenced lg calls :
  level lg = Num LogLevel.NONE \/ level lg = Obj ->
  forallb isLogging calls = true ->
  fold_left step calls lg = lg.
Proof.
  intros Hlevel. induction calls as [|c calls IH]; intros Hcalls; [reflexivity|].
  cbn in Hcalls. apply andb_prop in Hcalls as [Hc Hcalls]. cbn [fold_left].
  assert (Hstep : step lg c = lg).
  { assert (Hoff : forall severity, severity <= 4 -> enabled lg severity = false).
    { intros severity Hs. unfold enabled.
      destruct Hlevel as [-> | ->]; [|reflexivity].
      apply Nat.leb_gt. unfold LogLevel.NONE. lia. }
    destruct c; try discriminate; cbn [step];
      unfold debug, info, warning, warn, warning, error, critical, log;
      rewrite Hoff; try reflexivity;
      unfold LogLevel.DEBUG, LogLevel.INFO, LogLevel.WARNING, LogLevel.ERROR,
        LogLevel.CRITICAL; lia. }
  rewrite Hstep. now apply IH.
Qed.

Lemma logger_silenced_witness :
  fold_left step [Critical ["disk full"] "2024-01-01T00:00:00.000Z";
                  Error ["again"] "2024-01-01T00:00:01.000Z"]
            (setLevel (Val "NONE") "2024-01-01T00:00:00.000Z" initial)
  = setLevel (Val "NONE") "2024-01-01T00:00:00.000Z" initial.
Proof.
  apply logger_silenced.
  - left. reflexivity.
  - reflexivity.
Defined.

(** X13: [setLevel] reads the name without regard to letter case.  The six level
    names give their level, [warn] gives WARNING, and [getLevelString] gives
    the name back in upper case; an absent, empty or unknown name gives
    INFO.  The two names [constructor] and [__proto__] store an object
    instead of a number: the level then reads UNKNOWN and nothing is logged
    any more.  The notice of the change is itself recorded only when the new
    level is DEBUG or INFO. *)
Theorem setLevel_level levelStr now lg s :
  let lower := toLowerCase (orElse levelStr "info") in
  let lg' := setLevel levelStr now lg in
  (In lower ["debug"; "info"; "warning"; "error"; "critical"; "none"] ->
     getLevelString lg' = toUpperCase lower) /\
  (lower = "warn" -> getLevelString lg' = "WARNING") /\
  (levels lower = None -> getLevelString lg' = "INFO") /\
  (lower = "constructor" \/ lower = "__proto__" ->
     level lg' = Obj /\ getLevelString lg' = "UNKNOWN" /\
     forall severity, enabled lg' severity = false) /\
  (if enabled lg' LogLevel.INFO
   then logHistory lg' = logHistory (addToHistory "INFO"
                           ("Log level set to: " ++ showString levelStr) now lg)
   else logHistory lg' = logHistory lg) /\
  level (setLevel (Val (toUpperCase s)) now lg) = level (setLevel (Val s) now lg) /\
  level (setLevel Undefined now lg) = Num LogLevel.INFO /\
  level (setLevel (Val "") now lg) = Num LogLevel.INFO.
Proof.
  intros lower lg'.
  assert (Hlevel : level lg' = match levels lower with
                               | Some v => v
                               | None => Num LogLevel.INFO
                               end).
  { subst lg'. unfold setLevel, info. fold lower.
    match goal with
    | |- level (log ?a ?b ?c ?d ?l) = _ =>
        destruct (log_fields a b c d l) as [_ ->]
    end. reflexivity. }
  split; [|split; [|split; [|split; [|split; [|split; [|split]]]]]].
  - intros Hin. unfold getLevelString. rewrite Hlevel.
    cbn in Hin. intuition (subst; try contradiction);
      match goal with E : _ = lower |- _ => rewrite <- E end; reflexivity.
  - intros E. unfold getLevelString. rewrite Hlevel, E. reflexivity.
  - intros E. unfold getLevelString. rewrite Hlevel, E. reflexivity.
  - intros E. assert (Hl : level lg' = Obj).
    { rewrite Hlevel. destruct E as [-> | ->]; reflexivity. }
    unfold getLevelString, enabled. rewrite Hl. auto.
  - subst lg'. unfold setLevel, info. fold lower.
    match goal with
    | |- context [enabled (log ?a ?b ?c ?d ?l) _] =>
        set (base := l);
        assert (He : enabled (log a b c d base) LogLevel.INFO
                     = enabled base LogLevel.INFO)
          by (unfold enabled; destruct (log_fields a b c d base) as [_ ->];
              reflexivity)
    end.
    rewrite He. unfold log. destruct (enabled base LogLevel.INFO); reflexivity.
  - unfold setLevel, info.
    repeat match goal with
    | |- context [level (log ?a ?b ?c ?d ?l)] =>
        destruct (log_fields a b c d l) as [_ ->]
    end.
    cbn [level]. unfold orElse.
    destruct s as [|c s']; [reflexivity|].
    replace (truthy (toUpperCase (String c s'))) with true by reflexivity.
    replace (truthy (String c s')) with true by reflexivity.
    now rewrite toLowerCase_toUpperCase.
  - unfold setLevel, info.
    match goal with
    | |- level (log ?a ?b ?c ?d ?l) = _ =>
        destruct (log_fields a b c d l) as [_ ->]
    end. reflexivity.
  - unfold setLevel, info.
    match goal with
    | |- level (log ?a ?b ?c ?d ?l) = _ =>
        destruct (log_fields a b c d l) as [_ ->]
    end. reflexivity.
Qed.

Lemma setLevel_level_witness :
  getLevelString (setLevel (Val "Warn") "2024-01-01T00:00:00.000Z" initial)
  = "WARNING".
Proof.
  destruct (setLevel_level (Val "Warn") "2024-01-01T00:00:00.000Z" initial "")
    as (_ & H & _).
  apply H. reflexivity.
Defined.

(** X14: [getHistory(n)] returns the newest [n] entries, all of them when fewer
    are held, in order; without an argument it returns the newest 100; and
    [getHistory(0)] returns the whole history, not an empty list. *)
Theorem getHistory_newest n lg :
  List.length (getHistory (Some (S n)) lg)
  = Nat.min (S n) (List.length (logHistory lg)) /\
  (exists older, logHistory lg = (older ++ getHistory (Some (S n)) lg)%list) /\
  getHistory (Some 0) lg = logHistory lg /\
  getHistory None lg = getHistory (Some 100) lg.
Proof.
  unfold getHistory. cbn [Nat.eqb]. repeat split.
  - rewrite length_skipn. lia.
  - exists (firstn (List.length (logHistory lg) - S n) (logHistory lg)).
    symmetry. apply firstn_skipn.
Qed.

End LoggerFacts.

(** * The history across reloads *)

Section HistoryReload.

Lemma step_mirrored st e : mirrored st -> mirrored (step st e).
Proof.
  unfold mirrored. intros H. destruct e as [identifier data now| | |]; cbn [step].
  - left. apply addToHistory_stored.
  - unfold loadHistory. destruct H as [H|[H1 H2]]; rewrite ?H, ?H1; cbn; auto.
  - right. auto.
  - unfold loadHistory, start. cbn [storedHistory analysisHistory].
    destruct H as [H|[H1 H2]]; rewrite ?H, ?H1; cbn; auto.
Qed.

Lemma run_mirrored events : mirrored (run events).
Proof.
  unfold run. assert (H : mirrored (start Missing)) by (right; auto).
  revert H. generalize (start Missing).
  induction events as [|e events IH]; intros st H; cbn; [exact H|].
  apply IH, step_mirrored, H.
Qed.

(** X15: A reload of the page neither loses nor changes the analysis history:
    what [loadHistory] reads back from [localStorage] is the list as it was,
    and an extra [loadHistory] changes nothing.  After [clearHistory] the list
    is empty and stays empty over a reload. *)
Theorem history_survives_reload events :
  analysisHistory (step (run events) Reload) = analysisHistory (run events) /\
  analysisHistory (step (run events) LoadHistory) = analysisHistory (run events) /\
  analysisHistory (step (step (run events) ClearHistory) Reload) = [].
Proof.
  pose proof (run_mirrored events) as H. split; [|split; [|reflexivity]].
  - cbn [step]. unfold loadHistory, start. cbn [storedHistory analysisHistory].
    destruct H as [H|[H1 H2]]; rewrite ?H, ?H1; cbn; auto.
  - cbn [step]. unfold loadHistory.
    destruct H as [H|[H1 H2]]; rewrite ?H, ?H1; cbn; auto.
Qed.

End HistoryReload.

(** * Settings *)

Section SettingsFacts.

Variable parseInt : string -> float.
Variable numToString : float -> string.

Lemma loadConfigFile_settings file now st lg :
  fst (loadConfigFile file now st lg) =
  match file with
  | Loaded config => fst (applyConfig config now st lg)
  | NotOk | Failed => st
  end.
Proof.
  destruct file; reflexivity.
Qed.

Lemma configuredUrl_endsWith file : endsWith (configuredUrl file) "/" = false.
Proof.
  unfold configuredUrl. destruct file as [config| |]; try reflexivity.
  destruct (isTruthy (Config.apiUrl config)); [|reflexivity].
  apply normalizeApiUrl_endsWith.
Qed.

Lemma truthy_empty : truthy EmptyString = false.
Proof. reflexivity. Qed.

(** X16: After [initializeApp] the base URL never ends with a slash.  It is the
    normalised stored URL when [localStorage] holds one, whatever
    [config.json] says, and the item is rewritten with it; otherwise it is
    the normalised URL of [config.json], or empty.  The connection check made
    during the start goes to the URL of [config.json] when that is not empty,
    and only otherwise to the stored one: with both present, the check and
    the base URL left at the end can differ. *)
Theorem initializeApp_url file now stored :
  let app := initializeApp parseInt file now stored in
  let base := apiBaseUrl (settings app) in
  endsWith base "/" = false /\
  (if isTruthy (Stored.apiUrl stored)
   then base = normalizeApiUrl (Stored.apiUrl stored) /\
        Stored.apiUrl (items app) = Val base
   else base = configuredUrl file /\ items app = stored) /\
  (if isTruthy (isDemoMode (settings app)) then firstHealthCheck app = None
   else if truthy (configuredUrl file)
        then firstHealthCheck app = Some (configuredUrl file ++ "/api/health")
        else if truthy base
             then firstHealthCheck app = Some (base ++ "/api/health")
             else firstHealthCheck app = None).
Proof.
  intros app base. subst base app. unfold initializeApp.
  rewrite loadConfigFile_settings.
  set (st1 := match file with
              | Loaded config => fst (applyConfig config now defaults Logger.initial)
              | NotOk | Failed => defaults
              end).
  assert (Hurl : apiBaseUrl st1 = configuredUrl file).
  { subst st1. unfold configuredUrl.
    destruct file as [config| |]; try reflexivity;
      cbn; destruct (isTruthy (Config.apiUrl config)); reflexivity. }
  assert (Hload : apiBaseUrl (loadSettings parseInt stored st1) =
                  if isTruthy (Stored.apiUrl stored) && negb (truthy (configuredUrl file))
                  then normalizeApiUrl (Stored.apiUrl stored)
                  else configuredUrl file).
  { unfold loadSettings. cbn [apiBaseUrl]. now rewrite Hurl. }
  destruct (isTruthy (Stored.apiUrl stored)) eqn:Es; cbn [settings items firstHealthCheck apiBaseUrl isDemoMode].
  - split; [apply normalizeApiUrl_endsWith|]. split; [split; reflexivity|].
    unfold healthCheck. rewrite Hload. cbn [andb].
    destruct (isTruthy (isDemoMode (loadSettings parseInt stored st1)));
      [reflexivity|].
    destruct (truthy (configuredUrl file)) eqn:Ec; cbn [negb].
    + now rewrite Ec.
    + destruct (truthy (normalizeApiUrl (Stored.apiUrl stored))); reflexivity.
  - rewrite Hload. cbn [andb].
    split; [apply configuredUrl_endsWith|]. split; [split; reflexivity|].
    unfold healthCheck. rewrite Hload. cbn [andb].
    destruct (isTruthy (isDemoMode (loadSettings parseInt stored st1)));
      [reflexivity|].
    destruct (truthy (configuredUrl file)) eqn:Ec; cbn [negb]; reflexivity.
Qed.

(** X17: A flag is on after the start exactly when [config.json] gives a truthy
    value for it or the stored item is the text [true]: a stored [false] does
    not switch off what [config.json] switched on.  A toggle of the dark mode
    that completes is kept over a reload without [config.json], together with
    the demo flag; it fails to complete exactly when the demo flag holds no
    boolean. *)
Theorem flags_after_start file now stored st :
  let app := initializeApp parseInt file now stored in
  isTruthy (isDarkMode (settings app))
  = (strictEq (Stored.darkMode stored) "true" || configuredFlag Config.darkMode file) /\
  isTruthy (isDemoMode (settings app))
  = (strictEq (Stored.demoMode stored) "true" || configuredFlag Config.demoMode file) /\
  match toggleDarkMode numToString st stored with
  | (toggled, (saved, true)) =>
      isTruthy (isDarkMode toggled) = negb (isTruthy (isDarkMode st)) /\
      (exists demo, isDemoMode st = Val demo) /\
      isTruthy (isDarkMode (settings (initializeApp parseInt NotOk now saved)))
      = isTruthy (isDarkMode toggled) /\
      isTruthy (isDemoMode (settings (initializeApp parseInt NotOk now saved)))
      = isTruthy (isDemoMode st)
  | (_, (_, false)) => isDemoMode st = Null \/ isDemoMode st = Undefined
  end.
Proof.
  intros app. subst app.
  assert (Hflags : forall file stored,
    isDarkMode (settings (initializeApp parseInt file now stored))
    = (if strictEq (Stored.darkMode stored) "true" then Val true
       else match file with
            | Loaded config => unlessUndefined (Config.darkMode config) (Val false)
            | NotOk | Failed => Val false
            end) /\
    isDemoMode (settings (initializeApp parseInt file now stored))
    = (if strictEq (Stored.demoMode stored) "true" then Val true
       else match file with
            | Loaded config => unlessUndefined (Config.demoMode config) (Val false)
            | NotOk | Failed => Val false
            end)).
  { intros f s. unfold initializeApp. rewrite loadConfigFile_settings.
    destruct (isTruthy (Stored.apiUrl s)); cbn [settings isDarkMode isDemoMode];
      unfold loadSettings; cbn [isDarkMode isDemoMode];
      destruct f; split; reflexivity. }
  split; [|split].
  - destruct (Hflags file stored) as [-> _]. unfold configuredFlag.
    destruct (strictEq (Stored.darkMode stored) "true"); [reflexivity|].
    destruct file as [config| |]; try reflexivity.
    destruct (Config.darkMode config); reflexivity.
  - destruct (Hflags file stored) as [_ ->]. unfold configuredFlag.
    destruct (strictEq (Stored.demoMode stored) "true"); [reflexivity|].
    destruct file as [config| |]; try reflexivity.
    destruct (Config.demoMode config); reflexivity.
  - unfold toggleDarkMode, saveSettings. cbn [isDarkMode isDemoMode].
    destruct (isDemoMode st) as [| |demo] eqn:Ed; auto.
    split; [reflexivity|]. split; [eauto|].
    match goal with
    | |- context [initializeApp parseInt NotOk now ?s] =>
        destruct (Hflags NotOk s) as [-> ->]
    end.
    cbn [Stored.darkMode Stored.demoMode strictEq isTruthy].
    split; [destruct (negb (isTruthy (isDarkMode st))) | destruct demo];
      reflexivity.
Qed.

(** X18: After [saveConnectionSettings] the base URL has no slash at its end and
    the time-out is a number other than 0 and NaN, 30 when the input does not
    give one.  When the save completes, both are what [localStorage] holds,
    and a clean base URL is the one in use after the next start. *)
Theorem saveConnectionSettings_kept urlValue timeoutValue st stored now :
  let result := saveConnectionSettings parseInt numToString urlValue timeoutValue st stored in
  let st' := fst result in
  endsWith (apiBaseUrl st') "/" = false /\
  truthy (requestTimeout st') = true /\
  (truthy (parseInt timeoutValue) = false -> requestTimeout st' = 30%float) /\
  Stored.apiUrl (fst (snd result)) = Val (apiBaseUrl st') /\
  Stored.requestTimeout (fst (snd result)) = Val (numToString (requestTimeout st')) /\
  (cleanBase urlValue = true ->
     apiBaseUrl st' = urlValue /\
     apiBaseUrl (settings (initializeApp parseInt NotOk now (fst (snd result))))
     = urlValue).
Proof.
  intros result st'. subst st' result.
  unfold saveConnectionSettings. cbn [fst snd].
  set (c := connectionSettings parseInt urlValue timeoutValue st).
  assert (Hu : apiBaseUrl c = normalizeApiUrl (Val urlValue)) by reflexivity.
  assert (Ht : requestTimeout c = orElse (Val (parseInt timeoutValue)) 30%float)
    by reflexivity.
  assert (Hs : Stored.apiUrl (fst (saveSettings numToString c stored))
               = Val (apiBaseUrl c) /\
               Stored.requestTimeout (fst (saveSettings numToString c stored))
               = Val (numToString (requestTimeout c))).
  { unfold saveSettings.
    destruct (isDarkMode c); try (split; reflexivity);
      destruct (isDemoMode c); split; reflexivity. }
  split; [rewrite Hu; apply normalizeApiUrl_endsWith|].
  split; [|split; [|split; [|split]]].
  - rewrite Ht. unfold orElse.
    destruct (truthy (parseInt timeoutValue)) eqn:E; [exact E | reflexivity].
  - intros E. rewrite Ht. unfold orElse. now rewrite E.
  - apply Hs.
  - apply Hs.
  - intros Hclean. pose proof (normalizeApiUrl_clean _ Hclean) as Hfix.
    rewrite Hu, Hfix. split; [reflexivity|].
    destruct Hs as [Hitem _]. rewrite Hu, Hfix in Hitem.
    unfold initializeApp. rewrite Hitem. cbn [isTruthy].
    destruct (truthy urlValue) eqn:E; cbn [settings apiBaseUrl].
    + exact Hfix.
    + rewrite loadConfigFile_settings. unfold loadSettings. cbn [apiBaseUrl].
      rewrite Hitem. cbn [isTruthy]. rewrite E. cbn [andb].
      unfold truthy, truthy_string in E. apply negb_false_iff in E.
      apply String.eqb_eq in E. now subst.
Qed.

End SettingsFacts.

Lemma saveConnectionSettings_kept_witness :
  apiBaseUrl
    (fst (saveConnectionSettings (fun _ => 45%float) (fun _ => "45")
            "http://localhost:8080" "45" defaults Stored.empty))
  = "http://localhost:8080".
Proof.
  destruct (saveConnectionSettings_kept (fun _ => 45%float) (fun _ => "45")
              "http://localhost:8080" "45" defaults Stored.empty "")
    as (_ & _ & _ & _ & _ & H).
  apply H. reflexivity.
Defined.

(** * The exported table and the two demo reports *)

Section ExportAndDemo.

Variable toFixed : float -> nat -> string.
Variable numToString : float -> string.

(** X19: The CSV table always begins with the header row and ends with the red
    flag count, has two cells in every row and from seven to ten rows: the
    seven fixed ones and one for each of the Beneish, Altman and Piotroski
    results that the report carries.  The Fraud Triangle and Benford results
    are never exported, and the model table of the HTML report has the same
    three rows at most. *)
Theorem csvRows_shape data :
  let rows := csvRows data in
  Forall (fun row => List.length row = 2) rows /\
  7 <= List.length rows /\ List.length rows <= 10 /\
  hd_error rows = Some [CStr "Metric"; CStr "Value"] /\
  last rows [] = [CStr "Red Flags"; CNum (redFlagsCount data)] /\
  Forall (fun row => In (csvLabel row) csvLabels) rows /\
  List.length rows = 4 + List.length (htmlModelRows toFixed numToString data) + 3 /\
  Forall (fun row => In (fst (fst row))
                        ["Beneish M-Score"; "Altman Z-Score"; "Piotroski F-Score"])
         (htmlModelRows toFixed numToString data).
Proof.
  intros rows. subst rows. unfold csvRows, htmlModelRows, csvLabels.
  destruct (optChain (Report.models data) Models.beneish);
    destruct (optChain (Report.models data) Models.altman);
    destruct (optChain (Report.models data) Models.piotroski);
    cbn;
    (split; [repeat (apply Forall_cons; [reflexivity|]); apply Forall_nil|]);
    (split; [lia|]); (split; [lia|]); (split; [reflexivity|]);
    (split; [reflexivity|]);
    (split; [repeat (apply Forall_cons; [cbn; tauto|]); apply Forall_nil|]);
    (split; [reflexivity|]);
    repeat (apply Forall_cons; [cbn; tauto|]); apply Forall_nil.
Qed.

(** X20: Demo mode knows two reports.  An identifier recognised as Enron gets the
    CRITICAL one, with five red flags and all five model cards in the HIGH
    colour; every other identifier gets the same LOW report, with the score
    25%, no red flag and all five cards in the LOW colour, under the company
    name made of the identifier and "Inc.". *)
Theorem demo_report_two_profiles identifier :
  let data := generateDemoData identifier in
  Report.ticker data = Val identifier /\
  if isEnron identifier then
    riskLevel data = "CRITICAL" /\
    optChain (Report.red_flags data) (fun flags => Val (List.length flags)) = Val 5 /\
    map value_class (displayModels toFixed numToString data)
    = repeat "risk-high" 5 /\
    optChain (Report.company data) Company.name = Val "Enron Corporation"
  else
    riskLevel data = "LOW" /\
    riskScore data = 0.25%float /\
    Report.red_flags data = Val [] /\
    map value_class (displayModels toFixed numToString data)
    = repeat "risk-low" 5 /\
    map indicator_text (displayModels toFixed numToString data)
    = ["Unlikely Manipulator"; "Safe Zone"; "Strong"; "LOW"; "Normal"] /\
    optChain (Report.company data) Company.name = Val (identifier ++ " Inc.").
Proof.
  intros data. subst data. unfold generateDemoData, riskLevel, riskScore.
  split; [reflexivity|].
  destruct (isEnron identifier); repeat split.
Qed.

End ExportAndDemo.

(** * The filings tab and the keyboard *)

Section FilingsAndKeys.

Variable toFixed : float -> nat -> string.

Lemma escapeHtml_chars str :
  forallb (fun c => negb (isMarkup c)) (list_ascii_of_string (escapeHtml str))
  = true.
Proof.
  destruct str as [| |s]; try reflexivity.
  rewrite escapeHtml_Val. apply serializeText_no_markup.
Qed.

(** X21: The filings tab shows the message "No filing data available."
    exactly when the report has no filings, absent or empty; otherwise it
    shows one row per filing, in the order of the report.  The accession,
    date and type of a row never hold [<] or [>]; a filing without a risk
    level is coloured LOW and labelled with a dash, and one without revenue
    or income shows a dash for the amount. *)
Theorem displayFilings_rows data :
  let filings := objOr (Report.filings data) [] in
  match displayFilings toFixed data with
  | None => filings = []
  | Some rows =>
      filings <> [] /\
      rows = map (filingRow toFixed) filings /\
      List.length rows = List.length filings /\
      Forall (fun row =>
                forallb (fun c => negb (isMarkup c))
                        (list_ascii_of_string
                           (accession_text row ++ date_text row ++ type_text row))
                = true) rows
  end /\
  (forall accession date type,
      let row := filingRow toFixed
                   (Filing.mk accession date type Undefined Null Undefined) in
      risk_class row = "bg-low" /\ risk_text row = "-" /\
      revenue_text row = "-" /\ income_text row = "-").
Proof.
  intros filings. split; [|intros; repeat split].
  unfold displayFilings. fold filings.
  destruct filings as [|f l]; [reflexivity|].
  cbn [List.length Nat.eqb]. split; [discriminate|]. split; [reflexivity|].
  split; [apply length_map|].
  apply Forall_map. apply Forall_forall. intros filing _.
  unfold filingRow. cbn [accession_text date_text type_text].
  now rewrite !chars_app, !forallb_app, !escapeHtml_chars.
Qed.

Lemma shortcutOf_not_special lowerKey a :
  shortcutOf lowerKey = Some a -> a <> ShowHelp /\ a <> CloseModals.
Proof.
  unfold shortcutOf.
  repeat match goal with
         | |- context [String.eqb ?x ?y] => destruct (String.eqb x y)
         end; intros H; inversion H; split; discriminate.
Qed.

Lemma shortcutOf_none lowerKey :
  ~ In lowerKey ["s"; "e"; "h"; "p"; "d"; "m"] -> shortcutOf lowerKey = None.
Proof.
  intros H. unfold shortcutOf.
  repeat match goal with
         | |- context [String.eqb ?x ?y] =>
             destruct (String.eqb_spec x y) as [E|_];
             [exfalso; apply H; rewrite E; simpl; tauto|]
         end.
  reflexivity.
Qed.

(** The calls of a key press that is not a letter shortcut. *)
Lemma onKeydown_plain e :
  (if KeyEvent.ctrlKey e || KeyEvent.metaKey e
   then shortcutOf (toLowerCase (KeyEvent.key e)) else None) = None ->
  onKeydown e =
  (if String.eqb (KeyEvent.key e) "F1" then ([ShowHelp], true)
   else if String.eqb (KeyEvent.key e) "Escape" then ([CloseModals], false)
   else ([], false)).
Proof.
  intros H. unfold onKeydown. rewrite H. cbn [optionToList app].
  destruct (String.eqb_spec (KeyEvent.key e) "F1") as [->|_]; [reflexivity|].
  destruct (String.eqb (KeyEvent.key e) "Escape"); reflexivity.
Qed.

(** The calls of a letter shortcut. *)
Lemma onKeydown_shortcut e a :
  KeyEvent.ctrlKey e || KeyEvent.metaKey e = true ->
  shortcutOf (toLowerCase (KeyEvent.key e)) = Some a ->
  onKeydown e = ([a], true).
Proof.
  intros Hheld Ha. unfold onKeydown. rewrite Hheld, Ha.
  assert (E1 : String.eqb (KeyEvent.key e) "F1" = false)
    by (apply String.eqb_neq; intros E; rewrite E in Ha; discriminate).
  assert (E2 : String.eqb (KeyEvent.key e) "Escape" = false)
    by (apply String.eqb_neq; intros E; rewrite E in Ha; discriminate).
  now rewrite E1, E2.
Qed.

(** X22: A key press leads to at most one call.  While Ctrl or Cmd is held,
    the letters S, E and H, in either case, export the results as json, csv
    and html, P prints the report, D toggles the dark mode and M the demo
    mode.  Every other key press, and every one without Ctrl or Cmd, opens
    the help on F1, closes the dialogs on Escape and does nothing else.  The
    default action of the browser is prevented for the letter shortcuts and
    F1, not for Escape. *)
Theorem onKeydown_actions e :
  let actions := fst (onKeydown e) in
  let prevented := snd (onKeydown e) in
  let held := KeyEvent.ctrlKey e || KeyEvent.metaKey e in
  let key := KeyEvent.key e in
  List.length actions <= 1 /\
  (held = true ->
   (key = "s" \/ key = "S" -> actions = [ExportResults "json"]) /\
   (key = "e" \/ key = "E" -> actions = [ExportResults "csv"]) /\
   (key = "h" \/ key = "H" -> actions = [ExportResults "html"]) /\
   (key = "p" \/ key = "P" -> actions = [PrintReport]) /\
   (key = "d" \/ key = "D" -> actions = [ToggleDarkMode]) /\
   (key = "m" \/ key = "M" -> actions = [ToggleDemoMode])) /\
  (held = false \/ ~ In (toLowerCase key) ["s"; "e"; "h"; "p"; "d"; "m"] ->
   actions = (if String.eqb key "F1" then [ShowHelp]
              else if String.eqb key "Escape" then [CloseModals]
              else [])) /\
  prevented = match actions with
              | [] | [CloseModals] => false
              | _ => true
              end.
Proof.
  cbv zeta.
  assert (Hcases :
    (exists a, KeyEvent.ctrlKey e || KeyEvent.metaKey e = true /\
               shortcutOf (toLowerCase (KeyEvent.key e)) = Some a) \/
    (if KeyEvent.ctrlKey e || KeyEvent.metaKey e
     then shortcutOf (toLowerCase (KeyEvent.key e)) else None) = None).
  { destruct (KeyEvent.ctrlKey e || KeyEvent.metaKey e); [|now right].
    destruct (shortcutOf (toLowerCase (KeyEvent.key e))) as [a|];
      [left; now exists a | now right]. }
  split; [|split; [|split]].
  - destruct Hcases as [(a & Hheld & Ha)|Hnone].
    + rewrite (onKeydown_shortcut _ _ Hheld Ha). cbn. lia.
    + rewrite (onKeydown_plain _ Hnone).
      destruct (String.eqb _ "F1"); [cbn; lia|].
      destruct (String.eqb _ "Escape"); cbn; lia.
  - intros Hheld.
    repeat split; intros [E|E];
      (erewrite onKeydown_shortcut; [reflexivity | exact Hheld |];
       rewrite E; reflexivity).
  - intros Hnot.
    assert (Hnone : (if KeyEvent.ctrlKey e || KeyEvent.metaKey e
                     then shortcutOf (toLowerCase (KeyEvent.key e)) else None)
                    = None).
    { destruct Hnot as [->|Hnot]; [reflexivity|].
      rewrite (shortcutOf_none _ Hnot).
      now destruct (KeyEvent.ctrlKey e || KeyEvent.metaKey e). }
    rewrite (onKeydown_plain _ Hnone).
    destruct (String.eqb _ "F1"); [reflexivity|].
    destruct (String.eqb _ "Escape"); reflexivity.
  - destruct Hcases as [(a & Hheld & Ha)|Hnone].
    + rewrite (onKeydown_shortcut _ _ Hheld Ha). cbn [fst snd].
      destruct (shortcutOf_not_special _ _ Ha) as [_ N2].
      destruct a; try reflexivity. now contradiction N2.
    + rewrite (onKeydown_plain _ Hnone).
      destruct (String.eqb _ "F1"); [reflexivity|].
      destruct (String.eqb _ "Escape"); reflexivity.
Qed.

End FilingsAndKeys.
